(** * Task tools: a shallow embedding of [src/mcp/tools.py]

    The module under verification is a thin data-access layer over one
    table of tasks.  Each tool opens a session, runs a query or two and
    returns a dictionary.  The embedding below keeps that shape:

    - Python values that the tools receive and return live in [Py];
    - [Datetime] holds the part of [datetime] the tools call
      ([strptime] with the format [%Y-%m-%d] and [isoformat]);
    - [models] holds the row type;
    - the table is a list of rows in store order, threaded explicitly
      through every tool that commits. *)

From Stdlib Require Import ZArith List String Ascii Bool Arith Lia.
From Stdlib Require Import PrimFloat FloatOps SpecFloat Uint63.
From Stdlib Require DecimalString.
Import ListNotations.
Open Scope string_scope.

(** ** Python values *)

Module Py.

(** An argument annotated [Optional[str]]: [None] or a [str]. *)
Definition pystr := option string.

(** [bool(v)]: [None] and the empty string are falsy. *)
Definition truthy (v : pystr) : bool :=
  match v with
  | None => false
  | Some s => negb (s =? "")
  end.

(** [a == b] on such values. *)
Definition eqb (a b : pystr) : bool :=
  match a, b with
  | None, None => true
  | Some x, Some y => (x =? y)
  | _, _ => false
  end.

(** [str(v)], as an f-string interpolates it. *)
Definition str (v : pystr) : string :=
  match v with
  | None => "None"
  | Some s => s
  end.

(** [str(n)] for a non-negative [int]. *)
Definition str_of_nat (n : nat) : string :=
  DecimalString.NilZero.string_of_uint (Nat.to_uint n).

(** The values the tools build and return. *)
#[local] Unset Elimination Schemes.
Inductive value : Type :=
| VNone
| VStr (s : string)
| VInt (n : Z)
| VList (l : list value)
| VDict (items : list (string * value)).
#[local] Set Elimination Schemes.

Definition of_pystr (v : pystr) : value :=
  match v with
  | None => VNone
  | Some s => VStr s
  end.

(** [d[k]] on a dictionary, [None] when the key is absent or the value
    is not a dictionary. *)
Fixpoint assoc (k : string) (items : list (string * value)) : option value :=
  match items with
  | [] => None
  | (k', v) :: rest => if k' =? k then Some v else assoc k rest
  end.

Definition get (k : string) (d : value) : option value :=
  match d with
  | VDict items => assoc k items
  | _ => None
  end.

Definition keys (d : value) : list string :=
  match d with
  | VDict items => map fst items
  | _ => []
  end.

Inductive exn : Type :=
| ValueError (msg : string).

(** A call either returns a value or raises. *)
Inductive outcome (A : Type) : Type :=
| Return (a : A)
| Raise (e : exn).

Arguments Return {A} a.
Arguments Raise {A} e.

Definition raises {A} (o : outcome A) : bool :=
  match o with
  | Raise _ => true
  | Return _ => false
  end.

(** [int(x)] on a float: truncation toward zero of a finite double. *)
Definition int_of_float (x : float) : Z :=
  match Prim2SF x with
  | S754_finite sign m e =>
      let a := if (0 <=? e)%Z
               then Z.shiftl (Z.pos m) e
               else Z.shiftr (Z.pos m) (- e) in
      if sign then (- a)%Z else a
  | _ => 0%Z
  end.

(** An [int] below [2^63] as a float; [len] of a list of rows is
    always in that range, and below [2^53] the conversion is exact, so
    [a / b] on such ints is the IEEE quotient of the two doubles. *)
Definition float_of_nat (n : nat) : float :=
  PrimFloat.of_uint63 (Uint63.of_Z (Z.of_nat n)).

End Py.

(** ** The part of [datetime] the tools use *)

Module Datetime.

Local Open Scope Z_scope.

(** A naive [datetime.datetime]. *)
Record datetime : Type := mk {
  year : Z;
  month : Z;
  day : Z;
  hour : Z;
  minute : Z;
  second : Z;
  microsecond : Z
}.

Definition digit_char (n : Z) : ascii := ascii_of_N (Z.to_N (48 + n)).

(** [%02d], [%04d] and [%06d] on a field that fits the width, which
    the ranges of a [datetime] guarantee. *)
Definition fmt02 (n : Z) (k : string) : string :=
  String (digit_char (n / 10 mod 10)) (String (digit_char (n mod 10)) k).

Definition fmt04 (n : Z) (k : string) : string :=
  String (digit_char (n / 1000 mod 10))
    (String (digit_char (n / 100 mod 10)) (fmt02 n k)).

Definition fmt06 (n : Z) (k : string) : string :=
  String (digit_char (n / 100000 mod 10))
    (String (digit_char (n / 10000 mod 10)) (fmt04 n k)).

(** [dt.isoformat()]: [YYYY-MM-DDTHH:MM:SS], followed by [.ffffff]
    when the microsecond is not zero. *)
Definition isoformat (d : datetime) : string :=
  let frac :=
    if microsecond d =? 0 then ""
    else String "." (fmt06 (microsecond d) "") in
  fmt04 (year d) (String "-" (fmt02 (month d) (String "-" (fmt02 (day d)
    (String "T" (fmt02 (hour d) (String ":" (fmt02 (minute d) (String ":"
      (fmt02 (second d) frac)))))))))).

Definition code (c : ascii) : Z := Z.of_N (N_of_ascii c).

(** A character class [[lo-hi]] of the regular expressions below; its
    members are ASCII. *)
Definition in_range (lo hi c : ascii) : bool :=
  (code lo <=? code c) && (code c <=? code hi).

(** The value of an ASCII digit. *)
Definition digit (c : ascii) : Z := code c - 48.

(** A [str] is kept as its UTF-8 bytes.  A continuation byte gives six
    bits. *)
Definition continuation (c : ascii) : option Z :=
  let b := code c in
  if (128 <=? b) && (b <=? 191) then Some (b - 128) else None.

(** The first code point of a text and what follows it; [None] at the
    end of the text and on bytes that are not the UTF-8 form of a code
    point. *)
Definition utf8_next (s : string) : option (Z * string) :=
  match s with
  | EmptyString => None
  | String a r =>
      let b := code a in
      if b <? 128 then Some (b, r)
      else if (194 <=? b) && (b <=? 223) then
        match r with
        | String c1 r1 =>
            match continuation c1 with
            | Some x1 => Some ((b - 192) * 64 + x1, r1)
            | None => None
            end
        | _ => None
        end
      else if (224 <=? b) && (b <=? 239) then
        match r with
        | String c1 (String c2 r2) =>
            match continuation c1, continuation c2 with
            | Some x1, Some x2 =>
                let cp := ((b - 224) * 64 + x1) * 64 + x2 in
                if 2048 <=? cp then Some (cp, r2) else None
            | _, _ => None
            end
        | _ => None
        end
      else if (240 <=? b) && (b <=? 244) then
        match r with
        | String c1 (String c2 (String c3 r3)) =>
            match continuation c1, continuation c2, continuation c3 with
            | Some x1, Some x2, Some x3 =>
                let cp := (((b - 240) * 64 + x1) * 64 + x2) * 64 + x3 in
                if (65536 <=? cp) && (cp <=? 1114111) then Some (cp, r3)
                else None
            | _, _, _ => None
            end
        | _ => None
        end
      else None
  end.

(** The decimal digits of Unicode 14.0, the version of CPython 3.11:
    each entry is the code point of a zero and the number of digits
    that follow it in sequence, zero after nine. *)
Definition decimal_digits : list (Z * Z) :=
  [ (48, 10); (1632, 10); (1776, 10); (1984, 10); (2406, 10); (2534, 10);
    (2662, 10); (2790, 10); (2918, 10); (3046, 10); (3174, 10); (3302, 10);
    (3430, 10); (3558, 10); (3664, 10); (3792, 10); (3872, 10); (4160, 10);
    (4240, 10); (6112, 10); (6160, 10); (6470, 10); (6608, 10); (6784, 10);
    (6800, 10); (6992, 10); (7088, 10); (7232, 10); (7248, 10); (42528, 10);
    (43216, 10); (43264, 10); (43472, 10); (43504, 10); (43600, 10);
    (44016, 10); (65296, 10); (66720, 10); (68912, 10); (69734, 10);
    (69872, 10); (69942, 10); (70096, 10); (70384, 10); (70736, 10);
    (70864, 10); (71248, 10); (71360, 10); (71472, 10); (71904, 10);
    (72016, 10); (72784, 10); (73040, 10); (73120, 10); (92768, 10);
    (92864, 10); (93008, 10); (120782, 50); (123200, 10); (123632, 10);
    (125264, 10); (130032, 10) ].

(** The value [int] gives a code point that is a decimal digit. *)
Definition decimal_value (cp : Z) : option Z :=
  match find (fun e => (fst e <=? cp) && (cp <? fst e + snd e)) decimal_digits with
  | Some e => Some ((cp - fst e) mod 10)
  | None => None
  end.

(** The class [\d] on a [str]: any decimal digit, with its value. *)
Definition re_digit (s : string) : option (Z * string) :=
  match utf8_next s with
  | Some (cp, r) =>
      match decimal_value cp with
      | Some v => Some (v, r)
      | None => None
      end
  | None => None
  end.

(** Alternatives of a regular expression, tried in order. *)
Definition orelse {A} (x y : option A) : option A :=
  match x with
  | Some _ => x
  | None => y
  end.

(** The directive [%Y]: the regular expression [\d\d\d\d]. *)
Definition re_Y (s : string) : option (Z * string) :=
  match re_digit s with
  | Some (a, r1) =>
      match re_digit r1 with
      | Some (b, r2) =>
          match re_digit r2 with
          | Some (c, r3) =>
              match re_digit r3 with
              | Some (d, r4) => Some (1000 * a + 100 * b + 10 * c + d, r4)
              | None => None
              end
          | None => None
          end
      | None => None
      end
  | None => None
  end.

(** Two characters, the first equal to [a] and the second in
    [[lo-hi]]; [tens] is what the first is worth. *)
Definition lit_class (a lo hi : ascii) (tens : Z) (s : string)
    : option (Z * string) :=
  match s with
  | String x (String y rest) =>
      if Ascii.eqb x a && in_range lo hi y then Some (tens + digit y, rest)
      else None
  | _ => None
  end.

(** The class [[1-9]]. *)
Definition one_digit (s : string) : option (Z * string) :=
  match s with
  | String a rest => if in_range "1" "9" a then Some (digit a, rest) else None
  | EmptyString => None
  end.

(** [[1-2]\d]. *)
Definition class_digit (s : string) : option (Z * string) :=
  match s with
  | String a rest =>
      if in_range "1" "2" a
      then match re_digit rest with
           | Some (v, rest') => Some (10 * digit a + v, rest')
           | None => None
           end
      else None
  | EmptyString => None
  end.

(** The directive [%m]: [1[0-2]|0[1-9]|[1-9]], alternatives in order.
    What follows in the format is a hyphen, which no alternative that
    was passed over could have met, so the first that matches decides. *)
Definition re_m (s : string) : option (Z * string) :=
  orelse (lit_class "1" "0" "2" 10 s)
    (orelse (lit_class "0" "1" "9" 0 s) (one_digit s)).

(** The directive [%d]: [3[0-1]|[1-2]\d|0[1-9]|[1-9]| [1-9]]; it ends
    the format, so the first alternative that matches decides. *)
Definition re_d (s : string) : option (Z * string) :=
  orelse (lit_class "3" "0" "1" 30 s)
    (orelse (class_digit s)
       (orelse (lit_class "0" "1" "9" 0 s)
          (orelse (one_digit s) (lit_class " " "1" "9" 0 s)))).

Definition is_leap (y : Z) : bool :=
  (y mod 4 =? 0) && (negb (y mod 100 =? 0) || (y mod 400 =? 0)).

Definition days_in_month (y m : Z) : Z :=
  if m =? 2 then (if is_leap y then 29 else 28)
  else if (m =? 4) || (m =? 6) || (m =? 9) || (m =? 11) then 30
  else 31.

(** What the constructor [date(y, m, d)] accepts. *)
Definition valid_date (y m d : Z) : bool :=
  (1 <=? y) && (y <=? 9999) && (1 <=? m) && (m <=? 12)
  && (1 <=? d) && (d <=? days_in_month y m).

(** [datetime.strptime(s, "%Y-%m-%d")]; [None] stands for the
    [ValueError] it raises.  The whole string has to be consumed and
    the fields have to name a calendar date. *)
Definition strptime (s : string) : option datetime :=
  match re_Y s with
  | Some (y, String "-" r1) =>
      match re_m r1 with
      | Some (m, String "-" r2) =>
          match re_d r2 with
          | Some (d, EmptyString) =>
              if valid_date y m d then Some (mk y m d 0 0 0 0) else None
          | _ => None
          end
      | _ => None
      end
  | _ => None
  end.

(** The [YYYY-MM-DD] text of a calendar date. *)
Definition ymd (y m d : Z) : string :=
  fmt04 y (String "-" (fmt02 m (String "-" (fmt02 d "")))).

End Datetime.

(** ** The row type *)

Module models.

(** Modelled from the spec: the class [Task] of [src/models/task.py] is
    imported by the tools but is not among the sources.  The columns are
    the ones the data model lists and the tools read or write.  The
    identifier is kept in its textual form, the one [str(task.id)]
    yields.  Text columns hold whatever Python value the tools store in
    them, so each is a [Py.pystr]; no column constraint is assumed.
    [created_at] and [updated_at] are the timestamps the store sets
    when the row is inserted. *)
Record Task : Type := mk {
  id : string;
  user_id : Py.pystr;
  title : Py.pystr;
  description : Py.pystr;
  priority : Py.pystr;
  status : Py.pystr;
  due_date : option Datetime.datetime;
  tags : Py.pystr;
  created_at : option Datetime.datetime;
  updated_at : option Datetime.datetime
}.

(** Attribute assignments [task.f = v]. *)
Definition set_title (v : Py.pystr) (t : Task) : Task :=
  mk (id t) (user_id t) v (description t) (priority t) (status t)
     (due_date t) (tags t) (created_at t) (updated_at t).

Definition set_description (v : Py.pystr) (t : Task) : Task :=
  mk (id t) (user_id t) (title t) v (priority t) (status t)
     (due_date t) (tags t) (created_at t) (updated_at t).

Definition set_priority (v : Py.pystr) (t : Task) : Task :=
  mk (id t) (user_id t) (title t) (description t) v (status t)
     (due_date t) (tags t) (created_at t) (updated_at t).

Definition set_status (v : Py.pystr) (t : Task) : Task :=
  mk (id t) (user_id t) (title t) (description t) (priority t) v
     (due_date t) (tags t) (created_at t) (updated_at t).

Definition set_due_date (v : option Datetime.datetime) (t : Task) : Task :=
  mk (id t) (user_id t) (title t) (description t) (priority t) (status t)
     v (tags t) (created_at t) (updated_at t).

Definition set_tags (v : Py.pystr) (t : Task) : Task :=
  mk (id t) (user_id t) (title t) (description t) (priority t) (status t)
     (due_date t) v (created_at t) (updated_at t).

Definition set_updated_at (v : option Datetime.datetime) (t : Task) : Task :=
  mk (id t) (user_id t) (title t) (description t) (priority t) (status t)
     (due_date t) (tags t) (created_at t) v.

End models.

Abbreviation Task := models.Task.

(** ** The table and the session *)

(** The table of tasks: its rows, in the order the store returns them. *)
Definition Store : Type := list Task.

(** The primary key: no two rows carry the same identifier. *)
Definition unique_ids (st : Store) : Prop := NoDup (map models.id st).

(** [session.exec(select(Task).where(p)).all()]. *)
Definition exec_all (p : Task -> bool) (st : Store) : list Task := filter p st.

(** [.first()] on a result. *)
Definition first (rows : list Task) : option Task := hd_error rows.

(** [session.get(Task, i)]: the row a primary key names. *)
Definition get_by_id (i : string) (st : Store) : option Task :=
  find (fun r => models.id r =? i) st.

(** [session.add(t); session.commit()] on a new object: one more row. *)
Definition session_insert (t : Task) (st : Store) : Store := (st ++ [t])%list.

(** [session.add(t); session.commit()] on a loaded object: the row with
    its primary key takes the object's attributes. *)
Definition session_update (t : Task) (st : Store) : Store :=
  map (fun r => if models.id r =? models.id t then t else r) st.

(** [session.delete(t); session.commit()]: the row with its primary key
    goes. *)
Definition session_delete (t : Task) (st : Store) : Store :=
  filter (fun r => negb (models.id r =? models.id t)) st.

(** The [where] clauses of the tools. *)
Definition owned_by (user_id : Py.pystr) (t : Task) : bool :=
  Py.eqb (models.user_id t) user_id.

Definition titled (title : Py.pystr) (t : Task) : bool :=
  Py.eqb (models.title t) title.

Definition has_status (status : Py.pystr) (t : Task) : bool :=
  Py.eqb (models.status t) status.

(** ** The tools *)

Import Py.

(** [try: dt.datetime.strptime(due_date, "%Y-%m-%d")  except: pass],
    under the guard [if due_date:]; [None] when nothing was parsed. *)
Definition parse_due_date (due_date : pystr) : option Datetime.datetime :=
  if truthy due_date
  then match due_date with
       | Some s => Datetime.strptime s
       | None => None
       end
  else None.

Definition success (rest : list (string * value)) : value :=
  VDict (("status", VStr "success") :: rest).

Definition error (message : string) : value :=
  VDict [("status", VStr "error"); ("message", VStr message)].

(** [add_task].  [new_id] is the identifier the store generates for the
    row and [now] the time it stamps the row with; the defaults of the
    optional parameters ([priority="medium"], the others [None]) are the
    caller's to pass. *)
Definition add_task (new_id : string) (now : Datetime.datetime)
    (user_id title description priority due_date tags : pystr)
    (st : Store) : outcome value * Store :=
  if negb (truthy user_id) then (Raise (ValueError "user_id is required"), st)
  else
    let parsed_date := parse_due_date due_date in
    let task :=
      models.mk new_id user_id title description priority (Some "pending")
                parsed_date tags (Some now) (Some now) in
    (Return (success
       [("message", VStr ("Task '" ++ str title ++ "' added."));
        ("task", VDict [("id", VStr (models.id task));
                        ("title", of_pystr (models.title task));
                        ("status", of_pystr (models.status task))])]),
     session_insert task st).

(** One entry of the list [list_tasks] returns. *)
Definition serialize (t : Task) : value :=
  VDict
    [("id", VStr (models.id t));
     ("title", of_pystr (models.title t));
     ("description", of_pystr (models.description t));
     ("priority", of_pystr (models.priority t));
     ("status", of_pystr (models.status t));
     ("due_date", match models.due_date t with
                  | Some d => VStr (Datetime.isoformat d)
                  | None => VNone
                  end);
     ("created_at", match models.created_at t with
                    | Some d => VStr (Datetime.isoformat d)
                    | None => VNone
                    end)].

Definition list_tasks (user_id status : pystr) (st : Store) : outcome value :=
  if negb (truthy user_id) then Raise (ValueError "user_id is required")
  else
    let query := owned_by user_id in
    let query :=
      if truthy status && negb (Py.eqb status (Some "all"))
      then fun t => query t && has_status status t
      else query in
    let tasks := exec_all query st in
    Return (success [("tasks", VList (map serialize tasks))]).

Definition delete_task (user_id task_title : pystr) (st : Store)
    : outcome value * Store :=
  if negb (truthy user_id) || negb (truthy task_title)
  then (Raise (ValueError "Missing required fields"), st)
  else
    match first (exec_all (fun t => owned_by user_id t && titled task_title t) st) with
    | None => (Return (error "Task not found."), st)
    | Some task =>
        (Return (success
           [("message", VStr ("Task '" ++ str task_title ++ "' deleted."))]),
         session_delete task st)
    end.

(** The assignments of [update_task_by_title], in the order of the
    source; each is guarded by the truth value of its argument. *)
Definition patch (now : Datetime.datetime)
    (new_title description priority status due_date tags : pystr)
    (task : Task) : Task :=
  let task := if truthy new_title then models.set_title new_title task else task in
  let task := if truthy description then models.set_description description task else task in
  let task := if truthy priority then models.set_priority priority task else task in
  let task := if truthy status then models.set_status status task else task in
  let task := if truthy tags then models.set_tags tags task else task in
  let task :=
    match parse_due_date due_date with
    | Some d => models.set_due_date (Some d) task
    | None => task
    end in
  models.set_updated_at (Some now) task.

(** [update_task_by_title]; [now] is what [utcnow()] returns. *)
Definition update_task_by_title (now : Datetime.datetime)
    (user_id current_title new_title description priority status due_date tags : pystr)
    (st : Store) : outcome value * Store :=
  if negb (truthy user_id) || negb (truthy current_title)
  then (Return (error "Missing fields"), st)
  else
    match first (exec_all (fun t => owned_by user_id t && titled current_title t) st) with
    | None => (Return (error "Task not found."), st)
    | Some task =>
        let task := patch now new_title description priority status due_date tags task in
        (Return (success
           [("message", VStr ("Task '" ++ str current_title ++ "' updated."));
            ("task", VDict [("title", of_pystr (models.title task))])]),
         session_update task st)
    end.

(** [int((completed / total * 100) if total > 0 else 0)]: true division
    and the product are those of IEEE doubles. *)
Definition productivity_score (completed total : nat) : Z :=
  if (0 <? total)%nat
  then int_of_float
         (PrimFloat.mul
            (PrimFloat.div (float_of_nat completed) (float_of_nat total))
            (float_of_nat 100))
  else 0%Z.

Definition get_analytics (user_id : pystr) (st : Store) : outcome value :=
  if negb (truthy user_id) then Raise (ValueError "user_id is required")
  else
    let tasks := exec_all (owned_by user_id) st in
    let total := List.length tasks in
    let completed := List.length (filter (has_status (Some "completed")) tasks) in
    let pending := List.length (filter (has_status (Some "pending")) tasks) in
    let score := productivity_score completed total in
    Return (success
      [("analytics",
        VDict [("tasks_total", VInt (Z.of_nat total));
               ("tasks_completed", VInt (Z.of_nat completed));
               ("tasks_pending", VInt (Z.of_nat pending));
               ("productivity_score", VInt score)])]).

Definition delete_all_tasks (user_id : pystr) (st : Store)
    : outcome value * Store :=
  if negb (truthy user_id) then (Raise (ValueError "user_id is required"), st)
  else
    let tasks := exec_all (owned_by user_id) st in
    let count := List.length tasks in
    (Return (success
       [("message", VStr ("Deleted " ++ str_of_nat count ++ " tasks."))]),
     fold_left (fun s t => session_delete t s) tasks st).

(** In the two loops below [count] is incremented once per row, so it
    ends as the number of rows selected. *)
Definition complete_all_tasks (user_id : pystr) (st : Store)
    : outcome value * Store :=
  if negb (truthy user_id) then (Raise (ValueError "user_id is required"), st)
  else
    let tasks := exec_all (owned_by user_id) st in
    let count := List.length tasks in
    (Return (success
       [("message", VStr ("Marked " ++ str_of_nat count ++ " tasks completed."))]),
     fold_left
       (fun s t => session_update (models.set_status (Some "completed") t) s)
       tasks st).

Definition mark_all_tasks_incomplete (user_id : pystr) (st : Store)
    : outcome value * Store :=
  if negb (truthy user_id) then (Raise (ValueError "user_id is required"), st)
  else
    let tasks := exec_all (owned_by user_id) st in
    let count := List.length tasks in
    (Return (success
       [("message", VStr ("Marked " ++ str_of_nat count ++ " tasks pending."))]),
     fold_left
       (fun s t => session_update (models.set_status (Some "pending") t) s)
       tasks st).

(** ** Vocabulary of the statements and sample tables *)

(** The row the tools address: owned by [user_id] and titled [title]. *)
Definition matches (user_id title : pystr) (t : Task) : Prop :=
  models.user_id t = user_id /\ models.title t = title.

Definition by_title (user_id title : pystr) (t : Task) : bool :=
  owned_by user_id t && titled title t.

(** A checker for the primary-key invariant on a concrete table. *)
Fixpoint distinct (l : list string) : bool :=
  match l with
  | [] => true
  | x :: rest => negb (existsb (String.eqb x) rest) && distinct rest
  end.

(** A small table: two users, one title in common. *)
Definition nine : Datetime.datetime := Datetime.mk 2024 3 15 9 0 0 0.

Definition noon : Datetime.datetime := Datetime.mk 2024 3 15 12 0 0 0.

Definition demo : Store :=
  [ models.mk "a1" (Some "ann") (Some "milk") (Some "two litres") (Some "medium")
      (Some "pending") (Some (Datetime.mk 2024 4 1 0 0 0 0)) (Some "home")
      (Some nine) (Some nine);
    models.mk "b1" (Some "bob") (Some "milk") None (Some "low")
      (Some "pending") None None (Some nine) (Some nine);
    models.mk "a2" (Some "ann") (Some "rent") None (Some "high")
      (Some "completed") None None (Some nine) (Some nine);
    models.mk "a3" (Some "ann") (Some "gym") (Some "legs") (Some "low")
      (Some "blocked") None None (Some nine) (Some nine) ].

(** A user with fifty tasks, the first twenty-nine of them completed. *)
Definition fifty_tasks : Store :=
  map (fun i =>
         models.mk (str_of_nat i) (Some "u") (Some ("task " ++ str_of_nat i))
           None (Some "medium")
           (Some (if (i <=? 29)%nat then "completed" else "pending"))
           None None None None)
      (seq 1 50).

(** The keys of one record of [list_tasks], in the order of the source. *)
Definition list_fields : list string :=
  ["id"; "title"; "description"; "priority"; "status"; "due_date"; "created_at"].

(** The table after a status literal has been written to every row of
    [user_id]. *)
Definition with_status (literal : string) (user_id : pystr) (st : Store) : Store :=
  map (fun r => if owned_by user_id r
                then models.set_status (Some literal) r else r) st.

(** A table where one user has two tasks under one title. *)
Definition twins : Store :=
  [ models.mk "a1" (Some "ann") (Some "milk") None (Some "medium")
      (Some "pending") None None (Some nine) (Some nine);
    models.mk "b1" (Some "bob") (Some "milk") None (Some "low")
      (Some "completed") None None (Some nine) (Some nine);
    models.mk "a2" (Some "ann") (Some "milk") (Some "oat") (Some "high")
      (Some "pending") None None (Some nine) (Some nine) ].

(** The UTF-8 bytes of U+0665, the Arabic-Indic digit five. *)
Definition arabic_five : string :=
  String (ascii_of_nat 217) (String (ascii_of_nat 165) "").

(** What a query is to return, in the words of the specification: the
    rows of the table that satisfy the condition [P], each once and in
    the order of the table. *)
Inductive Selected (P : Task -> Prop) : Store -> list Task -> Prop :=
| Selected_nil : Selected P [] []
| Selected_keep (t : Task) (st : Store) (rows : list Task) :
    P t -> Selected P st rows -> Selected P (t :: st) (t :: rows)
| Selected_skip (t : Task) (st : Store) (rows : list Task) :
    ~ P t -> Selected P st rows -> Selected P (t :: st) rows.

(** The text of a month or a day written without a leading zero. *)
Definition unpadded (n : Z) (k : string) : string :=
  if (n <? 10)%Z then String (Datetime.digit_char n) k else Datetime.fmt02 n k.

(** A calendar date written [YYYY-M-D], month and day unpadded. *)
Definition ymd_unpadded (y m d : Z) : string :=
  Datetime.fmt04 y (String "-" (unpadded m (String "-" (unpadded d "")))).

(** * Properties *)

(** ** Parsing and printing dates, on examples *)

Example strptime_ex1 :
  Datetime.strptime "2024-03-15" = Some (Datetime.mk 2024 3 15 0 0 0 0).
Proof. reflexivity. Qed.

Example strptime_ex2 : Datetime.strptime "not-a-date" = None.
Proof. reflexivity. Qed.

Example strptime_ex3 : Datetime.strptime "2023-02-29" = None.
Proof. reflexivity. Qed.

Example strptime_ex4 :
  Datetime.strptime "2024-2-29" = Some (Datetime.mk 2024 2 29 0 0 0 0).
Proof. reflexivity. Qed.

Example strptime_ex5 : Datetime.strptime "2024-03-15 " = None.
Proof. reflexivity. Qed.

Example strptime_ex6 :
  Datetime.strptime ("2024-03-1" ++ arabic_five)
  = Some (Datetime.mk 2024 3 15 0 0 0 0).
Proof. reflexivity. Qed.

Example strptime_ex7 :
  Datetime.strptime ("202" ++ arabic_five ++ "-03-15")
  = Some (Datetime.mk 2025 3 15 0 0 0 0).
Proof. reflexivity. Qed.

Example strptime_ex8 : Datetime.strptime ("2024-03-" ++ arabic_five) = None.
Proof. reflexivity. Qed.

Example strptime_ex9 :
  Datetime.strptime ("2024-0" ++ arabic_five ++ "-15") = None.
Proof. reflexivity. Qed.

Example strptime_ex10 :
  Datetime.strptime "2024-01- 5" = Some (Datetime.mk 2024 1 5 0 0 0 0).
Proof. reflexivity. Qed.

Example isoformat_ex1 :
  Datetime.isoformat (Datetime.mk 2024 3 15 0 0 0 0) = "2024-03-15T00:00:00".
Proof. reflexivity. Qed.

Example isoformat_ex2 :
  Datetime.isoformat (Datetime.mk 2024 3 15 9 5 7 1234)
  = "2024-03-15T09:05:07.001234".
Proof. reflexivity. Qed.

(** ** Truth values and comparisons *)

Lemma truthy_Some (v : pystr) :
  truthy v = true -> exists s, v = Some s /\ s <> "".
Proof.
  destruct v as [s|]; simpl; [|discriminate].
  intros H. exists s. split; [reflexivity|].
  intros ->. discriminate.
Qed.

Lemma falsy_cases (v : pystr) :
  truthy v = false <-> v = None \/ v = Some "".
Proof.
  destruct v as [s|]; simpl.
  - rewrite negb_false_iff, String.eqb_eq. split.
    + intros ->. now right.
    + intros [H|H]; [discriminate|now inversion H].
  - split; [now left|reflexivity].
Qed.

Lemma pystr_eqb_eq (a b : pystr) : Py.eqb a b = true <-> a = b.
Proof.
  destruct a as [x|], b as [y|]; simpl; try (split; (discriminate || reflexivity)).
  rewrite String.eqb_eq. split; [now intros ->|now inversion 1].
Qed.

Lemma pystr_eqb_refl (a : pystr) : Py.eqb a a = true.
Proof. now apply pystr_eqb_eq. Qed.

Lemma pystr_eqb_neq (a b : pystr) : Py.eqb a b = false <-> a <> b.
Proof.
  rewrite <- pystr_eqb_eq. destruct (Py.eqb a b); split; congruence.
Qed.

(** ** The primary-key invariant on a concrete table *)

Lemma distinct_NoDup (l : list string) : distinct l = true -> NoDup l.
Proof.
  induction l as [|x rest IH]; simpl; intros H.
  - constructor.
  - apply andb_prop in H as [Hx Hrest]. constructor; [|now apply IH].
    intros Hin. apply negb_true_iff in Hx.
    assert (existsb (String.eqb x) rest = true) as E.
    { apply existsb_exists. exists x. split; [exact Hin|apply String.eqb_refl]. }
    congruence.
Qed.

Lemma unique_ids_check (st : Store) :
  distinct (map models.id st) = true -> unique_ids st.
Proof. apply distinct_NoDup. Qed.

(** ** Analytics *)

(** The three counts of [get_analytics] are the sizes of the caller's
    task set and of its completed and pending parts; the score is
    [productivity_score] of the first two. *)
Lemma get_analytics_counts (user_id : pystr) (st : Store) :
  truthy user_id = true ->
  let T := exec_all (owned_by user_id) st in
  get_analytics user_id st =
  Return (success
    [("analytics",
      VDict [("tasks_total", VInt (Z.of_nat (List.length T)));
             ("tasks_completed",
              VInt (Z.of_nat (List.length (filter (has_status (Some "completed")) T))));
             ("tasks_pending",
              VInt (Z.of_nat (List.length (filter (has_status (Some "pending")) T))));
             ("productivity_score",
              VInt (productivity_score
                      (List.length (filter (has_status (Some "completed")) T))
                      (List.length T)))])]).
Proof.
  intros H. unfold get_analytics. rewrite H. reflexivity.
Qed.

Lemma productivity_score_no_tasks (completed : nat) :
  productivity_score completed 0 = 0%Z.
Proof. reflexivity. Qed.

Example productivity_score_one_of_three : productivity_score 1 3 = 33%Z.
Proof. vm_compute. reflexivity. Qed.

Example get_analytics_demo :
  get_analytics (Some "ann") demo
  = Return (success
      [("analytics",
        VDict [("tasks_total", VInt 3);
               ("tasks_completed", VInt 1);
               ("tasks_pending", VInt 1);
               ("productivity_score", VInt 33)])]).
Proof. vm_compute. reflexivity. Qed.

(** C2 (analytics).  The counts are right, the score is not the floor
    of the percentage: with 29 of 50 tasks completed the percentage is
    exactly 58, and [get_analytics] reports 57.  The quotient
    [29 / 50] is rounded to a double just below 0.58, its product with
    100 is rounded to a double just below 58, and [int] truncates. *)
Theorem get_analytics_29_of_50 :
  unique_ids fifty_tasks
  /\ get_analytics (Some "u") fifty_tasks =
     Return (success
       [("analytics",
         VDict [("tasks_total", VInt 50);
                ("tasks_completed", VInt 29);
                ("tasks_pending", VInt 21);
                ("productivity_score", VInt 57)])])
  /\ (29 * 100 / 50 = 58)%Z.
Proof.
  split; [|split].
  - apply unique_ids_check. vm_compute. reflexivity.
  - vm_compute. reflexivity.
  - reflexivity.
Qed.

(** ** Looking a task up by owner and title *)

Lemma by_title_matches (user_id title : pystr) (t : Task) :
  by_title user_id title t = true <-> matches user_id title t.
Proof.
  unfold by_title, owned_by, titled, matches.
  rewrite andb_true_iff, !pystr_eqb_eq. reflexivity.
Qed.

Lemma first_None (p : Task -> bool) (st : Store) :
  (forall t, In t st -> p t = false) -> first (exec_all p st) = None.
Proof.
  unfold first, exec_all. induction st as [|r st IH]; simpl; intros H.
  - reflexivity.
  - rewrite (H r (or_introl eq_refl)). apply IH.
    intros t Ht. apply H. now right.
Qed.

Lemma first_Some (p : Task -> bool) (st : Store) (t : Task) :
  first (exec_all p st) = Some t -> In t st /\ p t = true.
Proof.
  unfold first, exec_all. intros H.
  assert (In t (filter p st)) as Hin.
  { destruct (filter p st) as [|x rest]; simpl in H; [discriminate|].
    inversion H. now left. }
  now apply filter_In in Hin.
Qed.

Lemma no_match_first (user_id title : pystr) (st : Store) :
  (forall t, In t st -> ~ matches user_id title t) ->
  first (exec_all (fun t => owned_by user_id t && titled title t) st) = None.
Proof.
  intros H. apply first_None. intros t Ht.
  apply not_true_is_false. intros E.
  apply (H t Ht). now apply by_title_matches.
Qed.

(** ** Missing arguments and missing targets *)

(** C1 (error channels).  With a missing or empty [user_id] or title,
    [delete_task] raises and [update_task_by_title] returns the
    dictionary [{status: error, message: Missing fields}]; with both
    present and no row matching them, both tools return the dictionary
    [{status: error, message: Task not found.}].  The table is left as
    it was in all four cases. *)
Theorem delete_raises_update_returns
    (now : Datetime.datetime)
    (user_id title new_title description priority status due_date tags : pystr)
    (st : Store) :
  (truthy user_id = false \/ truthy title = false ->
     delete_task user_id title st
       = (Raise (ValueError "Missing required fields"), st)
     /\ update_task_by_title now user_id title new_title description
          priority status due_date tags st
       = (Return (error "Missing fields"), st))
  /\
  (truthy user_id = true -> truthy title = true ->
   (forall t, In t st -> ~ matches user_id title t) ->
     delete_task user_id title st = (Return (error "Task not found."), st)
     /\ update_task_by_title now user_id title new_title description
          priority status due_date tags st
       = (Return (error "Task not found."), st)).
Proof.
  split.
  - intros H. unfold delete_task, update_task_by_title.
    assert (negb (truthy user_id) || negb (truthy title) = true) as ->.
    { destruct H as [-> | ->]; simpl; [reflexivity|apply orb_true_r]. }
    split; reflexivity.
  - intros Hu Ht Hno. unfold delete_task, update_task_by_title.
    rewrite Hu, Ht. simpl.
    rewrite (no_match_first _ _ _ Hno). split; reflexivity.
Qed.

Lemma delete_raises_update_returns_witness :
  (delete_task (Some "") (Some "milk") demo
     = (Raise (ValueError "Missing required fields"), demo)
   /\ update_task_by_title noon
        (Some "") (Some "milk") None (Some "x") None None None None demo
     = (Return (error "Missing fields"), demo))
  /\
  (delete_task (Some "ann") (Some "tax") demo
     = (Return (error "Task not found."), demo)
   /\ update_task_by_title noon
        (Some "ann") (Some "tax") None (Some "x") None None None None demo
     = (Return (error "Task not found."), demo)).
Proof.
  split.
  - apply (proj1 (delete_raises_update_returns noon
                    (Some "") (Some "milk") None (Some "x") None None None None demo)).
    left. reflexivity.
  - apply (proj2 (delete_raises_update_returns noon
                    (Some "ann") (Some "tax") None (Some "x") None None None None demo)).
    + reflexivity.
    + reflexivity.
    + intros t [<-|[<-|[<-|[<-|[]]]]] [_ H]; discriminate H.
Defined.

(** ** Listing *)

Lemma list_tasks_unfiltered (user_id : pystr) (st : Store) :
  truthy user_id = true ->
  list_tasks user_id None st
  = Return (success
      [("tasks", VList (map serialize (exec_all (owned_by user_id) st)))]).
Proof.
  intros H. unfold list_tasks. rewrite H. reflexivity.
Qed.

Lemma exec_all_Selected (p : Task -> bool) (P : Task -> Prop) (st : Store) :
  (forall t, p t = true <-> P t) -> Selected P st (exec_all p st).
Proof.
  intros H. unfold exec_all. induction st as [|r st IH]; simpl.
  - constructor.
  - destruct (p r) eqn:E.
    + constructor; [now apply H|exact IH].
    + constructor; [|exact IH]. intros HP. apply H in HP. congruence.
Qed.

Lemma Selected_In (P : Task -> Prop) (st : Store) (rows : list Task) :
  Selected P st rows -> forall t, In t rows <-> In t st /\ P t.
Proof.
  induction 1 as [|r st rows HP _ IH|r st rows HP _ IH]; intros t; simpl.
  - tauto.
  - rewrite IH. split.
    + intros [<-|[Hin Ht]]; [now split; [left|]|now split; [right|]].
    + intros [[<-|Hin] Ht]; [now left|right; now split].
  - rewrite IH. split.
    + intros [Hin Ht]. split; [now right|exact Ht].
    + intros [[<-|Hin] Ht]; [contradiction|now split].
Qed.

(** C6 (status filter).  For a non-empty [user_id], [status="all"]
    gives the same result as no [status] at all, namely the records of
    all the rows owned by the user, in table order; any other non-empty
    [status] gives the records of exactly the rows owned by the user
    whose status is that value. *)
Theorem list_tasks_all_is_no_filter (user_id status : pystr) (st : Store) :
  truthy user_id = true ->
  list_tasks user_id (Some "all") st = list_tasks user_id None st
  /\ (exists rows,
        list_tasks user_id None st
        = Return (success [("tasks", VList (map serialize rows))])
        /\ Selected (fun t => models.user_id t = user_id) st rows
        /\ (forall t, In t rows <-> In t st /\ models.user_id t = user_id))
  /\ (truthy status = true -> status <> Some "all" ->
      exists rows,
        list_tasks user_id status st
        = Return (success [("tasks", VList (map serialize rows))])
        /\ Selected (fun t => models.user_id t = user_id
                              /\ models.status t = status) st rows
        /\ (forall t, In t rows
                      <-> In t st /\ models.user_id t = user_id
                                  /\ models.status t = status)).
Proof.
  intros H. split; [|split].
  - unfold list_tasks. rewrite H. reflexivity.
  - exists (exec_all (owned_by user_id) st).
    split; [now apply list_tasks_unfiltered|].
    assert (Selected (fun t => models.user_id t = user_id) st
              (exec_all (owned_by user_id) st)) as Hs.
    { apply exec_all_Selected. intros t. unfold owned_by. apply pystr_eqb_eq. }
    split; [exact Hs|]. now apply Selected_In.
  - intros Hs Hall.
    exists (exec_all (fun t => owned_by user_id t && has_status status t) st).
    split.
    + unfold list_tasks. rewrite H, Hs.
      apply pystr_eqb_neq in Hall. rewrite Hall. reflexivity.
    + assert (Selected (fun t => models.user_id t = user_id
                                 /\ models.status t = status) st
                (exec_all (fun t => owned_by user_id t && has_status status t) st))
        as Hsel.
      { apply exec_all_Selected. intros t. unfold owned_by, has_status.
        now rewrite andb_true_iff, !pystr_eqb_eq. }
      split; [exact Hsel|]. now apply Selected_In.
Qed.

Lemma list_tasks_all_is_no_filter_witness :
  (list_tasks (Some "ann") (Some "all") demo = list_tasks (Some "ann") None demo
   /\ (exists rows,
         list_tasks (Some "ann") None demo
         = Return (success [("tasks", VList (map serialize rows))])
         /\ Selected (fun t => models.user_id t = Some "ann") demo rows
         /\ (forall t, In t rows <-> In t demo /\ models.user_id t = Some "ann"))
   /\ (exists rows,
         list_tasks (Some "ann") (Some "completed") demo
         = Return (success [("tasks", VList (map serialize rows))])
         /\ Selected (fun t => models.user_id t = Some "ann"
                               /\ models.status t = Some "completed") demo rows
         /\ (forall t, In t rows
                       <-> In t demo /\ models.user_id t = Some "ann"
                                     /\ models.status t = Some "completed")))
  /\ list_tasks (Some "ann") (Some "completed") demo
     = Return (success
         [("tasks",
           VList [VDict [("id", VStr "a2"); ("title", VStr "rent");
                         ("description", VNone); ("priority", VStr "high");
                         ("status", VStr "completed"); ("due_date", VNone);
                         ("created_at", VStr "2024-03-15T09:00:00")]])])
  /\ list_tasks (Some "ann") (Some "all") demo
     = Return (success
         [("tasks",
           VList [VDict [("id", VStr "a1"); ("title", VStr "milk");
                         ("description", VStr "two litres");
                         ("priority", VStr "medium");
                         ("status", VStr "pending");
                         ("due_date", VStr "2024-04-01T00:00:00");
                         ("created_at", VStr "2024-03-15T09:00:00")];
                  VDict [("id", VStr "a2"); ("title", VStr "rent");
                         ("description", VNone); ("priority", VStr "high");
                         ("status", VStr "completed"); ("due_date", VNone);
                         ("created_at", VStr "2024-03-15T09:00:00")];
                  VDict [("id", VStr "a3"); ("title", VStr "gym");
                         ("description", VStr "legs"); ("priority", VStr "low");
                         ("status", VStr "blocked"); ("due_date", VNone);
                         ("created_at", VStr "2024-03-15T09:00:00")]])]).
Proof.
  split; [|split; reflexivity].
  destruct (list_tasks_all_is_no_filter (Some "ann") (Some "completed") demo
              eq_refl) as [H1 [H2 H3]].
  split; [exact H1|split; [exact H2|]].
  apply H3; [reflexivity|discriminate].
Defined.

Example list_tasks_demo_completed :
  list_tasks (Some "ann") (Some "completed") demo
  = Return (success
      [("tasks",
        VList [VDict [("id", VStr "a2"); ("title", VStr "rent");
                      ("description", VNone); ("priority", VStr "high");
                      ("status", VStr "completed"); ("due_date", VNone);
                      ("created_at", VStr "2024-03-15T09:00:00")]])]).
Proof. reflexivity. Qed.

Lemma serialize_keys (t : Task) : keys (serialize t) = list_fields.
Proof. reflexivity. Qed.

(** C10 (shape of a listed record).  Whatever [list_tasks] returns is a
    success dictionary whose [tasks] are records with exactly the keys
    [id], [title], [description], [priority], [status], [due_date] and
    [created_at]; [tags], [updated_at] and [user_id] are not among
    them. *)
Theorem list_tasks_record_fields (user_id status : pystr) (st : Store) (v : value) :
  list_tasks user_id status st = Return v ->
  exists records,
    v = success [("tasks", VList records)]
    /\ Forall (fun r => keys r = list_fields
                        /\ ~ In "tags" (keys r)
                        /\ ~ In "updated_at" (keys r)
                        /\ ~ In "user_id" (keys r)) records.
Proof.
  unfold list_tasks. destruct (negb (truthy user_id)); [discriminate|].
  intros H. inversion H as [Hv]. clear H Hv.
  eexists. split; [reflexivity|].
  apply Forall_forall. intros r Hr.
  apply in_map_iff in Hr as [t [<- _]].
  rewrite serialize_keys. unfold list_fields.
  repeat split; simpl; intuition discriminate.
Qed.

Lemma list_tasks_record_fields_witness :
  exists records,
    success [("tasks", VList (map serialize (exec_all (owned_by (Some "ann")) demo)))]
    = success [("tasks", VList records)]
    /\ Forall (fun r => keys r = list_fields
                        /\ ~ In "tags" (keys r)
                        /\ ~ In "updated_at" (keys r)
                        /\ ~ In "user_id" (keys r)) records.
Proof.
  apply (list_tasks_record_fields (Some "ann") None demo).
  reflexivity.
Defined.

(** ** Creating *)

Lemma add_task_returns (new_id : string) (now : Datetime.datetime)
    (user_id title description priority due_date tags : pystr) (st : Store) :
  truthy user_id = true ->
  add_task new_id now user_id title description priority due_date tags st
  = (Return (success
       [("message", VStr ("Task '" ++ str title ++ "' added."));
        ("task", VDict [("id", VStr new_id);
                        ("title", of_pystr title);
                        ("status", VStr "pending")])]),
     (st ++ [models.mk new_id user_id title description priority (Some "pending")
               (parse_due_date due_date) tags (Some now) (Some now)])%list).
Proof.
  intros H. unfold add_task. rewrite H. reflexivity.
Qed.

(** C8 (only [user_id] is validated).  With a non-empty [user_id] and
    a title that is empty or [None], [add_task] raises nothing and
    reports no error: it returns the success dictionary and the table
    gains one row whose title is that very value. *)
Theorem add_task_accepts_empty_title (new_id : string) (now : Datetime.datetime)
    (user_id title description priority due_date tags : pystr) (st : Store) :
  truthy user_id = true ->
  truthy title = false ->
  exists task,
    add_task new_id now user_id title description priority due_date tags st
    = (Return (success
         [("message", VStr ("Task '" ++ str title ++ "' added."));
          ("task", VDict [("id", VStr new_id);
                          ("title", of_pystr title);
                          ("status", VStr "pending")])]),
       (st ++ [task])%list)
    /\ models.title task = title
    /\ models.user_id task = user_id
    /\ models.status task = Some "pending".
Proof.
  intros Hu _. eexists. split.
  - now apply add_task_returns.
  - repeat split.
Qed.

Lemma add_task_accepts_empty_title_witness :
  exists task,
    add_task "a4" noon (Some "ann") (Some "") None (Some "medium") None None demo
    = (Return (success
         [("message", VStr "Task '' added.");
          ("task", VDict [("id", VStr "a4");
                          ("title", VStr "");
                          ("status", VStr "pending")])]),
       (demo ++ [task])%list)
    /\ models.title task = Some ""
    /\ models.user_id task = Some "ann"
    /\ models.status task = Some "pending".
Proof.
  apply (add_task_accepts_empty_title "a4" noon (Some "ann") (Some "") None
           (Some "medium") None None demo); reflexivity.
Defined.

(** ** Updating *)

Lemma get_by_id_session_update (task task' : Task) (st : Store) :
  In task st ->
  models.id task' = models.id task ->
  get_by_id (models.id task) (session_update task' st) = Some task'.
Proof.
  intros Hin Hid. unfold get_by_id, session_update. rewrite Hid.
  induction st as [|r st IH]; simpl in *; [contradiction|].
  destruct (models.id r =? models.id task) eqn:E.
  - simpl. rewrite Hid, String.eqb_refl. reflexivity.
  - simpl. rewrite E. apply IH.
    destruct Hin as [->|Hin]; [|exact Hin].
    rewrite String.eqb_refl in E. discriminate.
Qed.

(** What [patch] leaves in each attribute. *)
Lemma patch_fields (now : Datetime.datetime)
    (new_title description priority status due_date tags : pystr) (task : Task) :
  let task' := patch now new_title description priority status due_date tags task in
  models.id task' = models.id task
  /\ models.user_id task' = models.user_id task
  /\ models.title task'
     = (if truthy new_title then new_title else models.title task)
  /\ models.description task'
     = (if truthy description then description else models.description task)
  /\ models.priority task'
     = (if truthy priority then priority else models.priority task)
  /\ models.status task'
     = (if truthy status then status else models.status task)
  /\ models.tags task' = (if truthy tags then tags else models.tags task)
  /\ models.due_date task'
     = match parse_due_date due_date with
       | Some d => Some d
       | None => models.due_date task
       end
  /\ models.created_at task' = models.created_at task
  /\ models.updated_at task' = Some now.
Proof.
  unfold patch.
  destruct (truthy new_title), (truthy description), (truthy priority),
    (truthy status), (truthy tags), (parse_due_date due_date);
    simpl; repeat split.
Qed.

Lemma update_found (now : Datetime.datetime)
    (user_id current_title new_title description priority status due_date tags : pystr)
    (st : Store) (task : Task) :
  truthy user_id = true ->
  truthy current_title = true ->
  first (exec_all (fun t => owned_by user_id t && titled current_title t) st)
    = Some task ->
  let task' := patch now new_title description priority status due_date tags task in
  update_task_by_title now user_id current_title new_title description
    priority status due_date tags st
  = (Return (success
       [("message", VStr ("Task '" ++ str current_title ++ "' updated."));
        ("task", VDict [("title", of_pystr (models.title task'))])]),
     session_update task' st)
  /\ get_by_id (models.id task) (session_update task' st) = Some task'.
Proof.
  intros Hu Ht Hf. split.
  - unfold update_task_by_title. rewrite Hu, Ht, Hf. reflexivity.
  - apply get_by_id_session_update.
    + now apply first_Some in Hf.
    + apply patch_fields.
Qed.

Lemma parse_due_date_falsy (due_date : pystr) :
  truthy due_date = false -> parse_due_date due_date = None.
Proof. unfold parse_due_date. now intros ->. Qed.

(** C3 (empty string means not supplied).  When [update_task_by_title]
    finds its task, the row stored under the task's identifier
    afterwards keeps every optional attribute whose argument was empty
    or [None], and takes the argument for every text attribute that was
    supplied non-empty. *)
Theorem update_skips_empty_arguments (now : Datetime.datetime)
    (user_id current_title new_title description priority status due_date tags : pystr)
    (st : Store) (task : Task) :
  truthy user_id = true ->
  truthy current_title = true ->
  first (exec_all (fun t => owned_by user_id t && titled current_title t) st)
    = Some task ->
  exists task',
    get_by_id (models.id task)
      (snd (update_task_by_title now user_id current_title new_title
              description priority status due_date tags st)) = Some task'
    /\ (truthy new_title = false -> models.title task' = models.title task)
    /\ (truthy description = false ->
        models.description task' = models.description task)
    /\ (truthy priority = false -> models.priority task' = models.priority task)
    /\ (truthy status = false -> models.status task' = models.status task)
    /\ (truthy tags = false -> models.tags task' = models.tags task)
    /\ (truthy due_date = false -> models.due_date task' = models.due_date task)
    /\ (truthy new_title = true -> models.title task' = new_title)
    /\ (truthy description = true -> models.description task' = description)
    /\ (truthy priority = true -> models.priority task' = priority)
    /\ (truthy status = true -> models.status task' = status)
    /\ (truthy tags = true -> models.tags task' = tags).
Proof.
  intros Hu Ht Hf.
  destruct (update_found now user_id current_title new_title description
              priority status due_date tags st task Hu Ht Hf) as [Hupd Hget].
  exists (patch now new_title description priority status due_date tags task).
  rewrite Hupd. cbn [snd]. split; [exact Hget|].
  destruct (patch_fields now new_title description priority status due_date
              tags task) as (_ & _ & Ti & De & Pr & St & Ta & Du & _ & _).
  rewrite Ti, De, Pr, St, Ta, Du.
  repeat split; intros E; try (rewrite E; reflexivity).
  now rewrite (parse_due_date_falsy _ E).
Qed.

Lemma update_skips_empty_arguments_witness :
  exists task',
    get_by_id "a1"
      (snd (update_task_by_title noon (Some "ann") (Some "milk") None (Some "")
              (Some "high") None (Some "") None demo)) = Some task'
    /\ models.description task' = Some "two litres"
    /\ models.priority task' = Some "high"
    /\ models.due_date task' = Some (Datetime.mk 2024 4 1 0 0 0 0).
Proof.
  destruct (update_skips_empty_arguments noon (Some "ann") (Some "milk") None
              (Some "") (Some "high") None (Some "") None demo
              (models.mk "a1" (Some "ann") (Some "milk") (Some "two litres")
                 (Some "medium") (Some "pending")
                 (Some (Datetime.mk 2024 4 1 0 0 0 0)) (Some "home")
                 (Some nine) (Some nine))
              eq_refl eq_refl eq_refl)
    as (task' & Hget & _ & De & _ & _ & _ & Du & _ & _ & Pr & _).
  exists task'. split; [exact Hget|].
  split; [exact (De eq_refl)|].
  split; [exact (Pr eq_refl)|exact (Du eq_refl)].
Defined.

(** C9 (an empty patch still stamps the row).  When
    [update_task_by_title] finds its task it returns the success
    dictionary with the resulting title and stores the patched row,
    whose [updated_at] is the current time; with no optional argument
    supplied the stored row is the old one with only [updated_at]
    replaced, and the title returned is the old title. *)
Theorem update_always_stamps (now : Datetime.datetime)
    (user_id current_title new_title description priority status due_date tags : pystr)
    (st : Store) (task : Task) :
  truthy user_id = true ->
  truthy current_title = true ->
  first (exec_all (fun t => owned_by user_id t && titled current_title t) st)
    = Some task ->
  exists task',
    update_task_by_title now user_id current_title new_title description
      priority status due_date tags st
    = (Return (success
         [("message", VStr ("Task '" ++ str current_title ++ "' updated."));
          ("task", VDict [("title", of_pystr (models.title task'))])]),
       session_update task' st)
    /\ get_by_id (models.id task) (session_update task' st) = Some task'
    /\ models.updated_at task' = Some now
    /\ (truthy new_title = false -> truthy description = false ->
        truthy priority = false -> truthy status = false ->
        truthy due_date = false -> truthy tags = false ->
        task' = models.set_updated_at (Some now) task
        /\ models.title task' = current_title).
Proof.
  intros Hu Ht Hf.
  destruct (update_found now user_id current_title new_title description
              priority status due_date tags st task Hu Ht Hf) as [Hupd Hget].
  exists (patch now new_title description priority status due_date tags task).
  split; [exact Hupd|]. split; [exact Hget|]. split.
  - apply patch_fields.
  - intros E1 E2 E3 E4 E5 E6. unfold patch.
    rewrite E1, E2, E3, E4, E6, (parse_due_date_falsy _ E5). split.
    + reflexivity.
    + simpl. apply first_Some in Hf as [_ Hp].
      apply andb_prop in Hp as [_ Hp]. now apply pystr_eqb_eq in Hp.
Qed.

Lemma update_always_stamps_witness :
  exists task',
    update_task_by_title noon (Some "ann") (Some "rent") None (Some "") None
      None None None demo
    = (Return (success
         [("message", VStr "Task 'rent' updated.");
          ("task", VDict [("title", of_pystr (models.title task'))])]),
       session_update task' demo)
    /\ get_by_id "a2" (session_update task' demo) = Some task'
    /\ models.updated_at task' = Some noon
    /\ task' = models.mk "a2" (Some "ann") (Some "rent") None (Some "high")
                 (Some "completed") None None (Some nine) (Some noon)
    /\ models.title task' = Some "rent".
Proof.
  destruct (update_always_stamps noon (Some "ann") (Some "rent") None (Some "")
              None None None None demo
              (models.mk "a2" (Some "ann") (Some "rent") None (Some "high")
                 (Some "completed") None None (Some nine) (Some nine))
              eq_refl eq_refl eq_refl)
    as (task' & Hupd & Hget & Hstamp & Hempty).
  exists task'. split; [exact Hupd|]. split; [exact Hget|].
  split; [exact Hstamp|].
  exact (Hempty eq_refl eq_refl eq_refl eq_refl eq_refl eq_refl).
Defined.

(** ** Dates: parsing what was printed *)

Section Digits.

Local Open Scope Z_scope.

(** A property of the integers of an interval, checked one by one. *)
Lemma interval_cases (P : Z -> Prop) (lo : Z) (n : nat) :
  (forall k, (k < n)%nat -> P (lo + Z.of_nat k)) ->
  forall z, lo <= z < lo + Z.of_nat n -> P z.
Proof.
  intros H z Hz.
  replace z with (lo + Z.of_nat (Z.to_nat (z - lo))) by lia.
  apply H. lia.
Qed.

Lemma re_digit_digit_char (k : Z) (rest : string) :
  0 <= k < 10 ->
  Datetime.re_digit (String (Datetime.digit_char k) rest) = Some (k, rest).
Proof.
  revert k. apply (interval_cases _ 0 10). intros k Hk.
  do 10 (destruct k as [|k]; [reflexivity|]). lia.
Qed.

Lemma re_Y_fmt04 (y : Z) (rest : string) :
  0 <= y <= 9999 ->
  Datetime.re_Y (Datetime.fmt04 y rest) = Some (y, rest).
Proof.
  intros Hy. unfold Datetime.fmt04, Datetime.fmt02, Datetime.re_Y.
  rewrite !re_digit_digit_char by (apply Z.mod_pos_bound; lia).
  f_equal. f_equal. Z.to_euclidean_division_equations. lia.
Qed.

Lemma re_m_fmt02 (m : Z) (rest : string) :
  1 <= m <= 12 ->
  Datetime.re_m (Datetime.fmt02 m rest) = Some (m, rest).
Proof.
  intros Hm. revert m Hm.
  assert (forall m, 1 <= m < 1 + Z.of_nat 12 ->
          Datetime.re_m (Datetime.fmt02 m rest) = Some (m, rest)) as H.
  { apply (interval_cases _ 1 12). intros k Hk.
    do 12 (destruct k as [|k]; [reflexivity|]). lia. }
  intros m Hm. apply H. lia.
Qed.

Lemma re_d_fmt02 (d : Z) :
  1 <= d <= 31 ->
  Datetime.re_d (Datetime.fmt02 d "") = Some (d, "").
Proof.
  intros Hd. revert d Hd.
  assert (forall d, 1 <= d < 1 + Z.of_nat 31 ->
          Datetime.re_d (Datetime.fmt02 d "") = Some (d, "")) as H.
  { apply (interval_cases _ 1 31). intros k Hk.
    do 31 (destruct k as [|k]; [reflexivity|]). lia. }
  intros d Hd. apply H. lia.
Qed.

Lemma days_in_month_le_31 (y m : Z) : Datetime.days_in_month y m <= 31.
Proof.
  unfold Datetime.days_in_month.
  destruct (m =? 2); [destruct (Datetime.is_leap y); lia|].
  destruct ((m =? 4) || (m =? 6) || (m =? 9) || (m =? 11))%bool; lia.
Qed.

Lemma valid_date_bounds (y m d : Z) :
  Datetime.valid_date y m d = true ->
  1 <= y <= 9999 /\ 1 <= m <= 12 /\ 1 <= d <= Datetime.days_in_month y m.
Proof.
  unfold Datetime.valid_date. rewrite !andb_true_iff, !Z.leb_le. lia.
Qed.

(** [strptime] reads back the text of every calendar date. *)
Lemma strptime_ymd (y m d : Z) :
  Datetime.valid_date y m d = true ->
  Datetime.strptime (Datetime.ymd y m d) = Some (Datetime.mk y m d 0 0 0 0).
Proof.
  intros Hv. destruct (valid_date_bounds y m d Hv) as (Hy & Hm & Hd).
  pose proof (days_in_month_le_31 y m) as Hdm.
  unfold Datetime.strptime, Datetime.ymd.
  rewrite re_Y_fmt04 by lia.
  rewrite re_m_fmt02 by lia.
  rewrite re_d_fmt02 by lia.
  rewrite Hv. reflexivity.
Qed.

(** A midnight prints as the date text followed by [T00:00:00]. *)
Lemma isoformat_midnight (y m d : Z) :
  Datetime.isoformat (Datetime.mk y m d 0 0 0 0)
  = (Datetime.ymd y m d ++ "T00:00:00")%string.
Proof. reflexivity. Qed.

End Digits.

Example ymd_ex : Datetime.ymd 2024 3 15 = "2024-03-15".
Proof. reflexivity. Qed.

(** ** Due dates through the tools *)

Lemma parse_due_date_ymd (y m d : Z) :
  Datetime.valid_date y m d = true ->
  parse_due_date (Some (Datetime.ymd y m d))
  = Some (Datetime.mk y m d 0 0 0 0).
Proof.
  intros Hv. unfold parse_due_date.
  change (truthy (Some (Datetime.ymd y m d))) with true.
  cbv iota. now apply strptime_ymd.
Qed.

Lemma parse_due_date_malformed (due : string) :
  Datetime.strptime due = None -> parse_due_date (Some due) = None.
Proof.
  intros H. unfold parse_due_date. now destruct (truthy (Some due)).
Qed.

Lemma exec_all_app (p : Task -> bool) (st : Store) (t : Task) :
  exec_all p (st ++ [t])%list
  = (exec_all p st ++ (if p t then [t] else []))%list.
Proof. unfold exec_all. rewrite filter_app. reflexivity. Qed.

(** C7 (round trip of the due date).  Creating a task with the text of
    a calendar date as [due_date] stores that date at midnight, and
    [list_tasks] then shows the task with [due_date] rendered as the
    same text followed by [T00:00:00]; a task without a due date is
    shown with [due_date] null. *)
Theorem due_date_round_trip (new_id : string) (now : Datetime.datetime)
    (user_id title description priority tags : pystr) (st : Store) (y m d : Z) :
  truthy user_id = true ->
  Datetime.valid_date y m d = true ->
  exists task,
    snd (add_task new_id now user_id title description priority
           (Some (Datetime.ymd y m d)) tags st) = (st ++ [task])%list
    /\ models.due_date task = Some (Datetime.mk y m d 0 0 0 0)
    /\ list_tasks user_id None (st ++ [task])%list
       = Return (success
           [("tasks",
             VList (map serialize (exec_all (owned_by user_id) st)
                    ++ [serialize task])%list)])
    /\ Py.get "due_date" (serialize task)
       = Some (VStr (Datetime.ymd y m d ++ "T00:00:00"))
    /\ (forall t, models.due_date t = None ->
                  Py.get "due_date" (serialize t) = Some VNone).
Proof.
  intros Hu Hv. eexists. split.
  - rewrite add_task_returns by exact Hu. cbn [snd]. reflexivity.
  - cbn [models.due_date]. rewrite (parse_due_date_ymd y m d Hv).
    split; [reflexivity|]. split; [|split].
    + rewrite list_tasks_unfiltered by exact Hu.
      rewrite exec_all_app. unfold owned_by at 2. cbn [models.user_id].
      rewrite pystr_eqb_refl, map_app. reflexivity.
    + reflexivity.
    + intros t Ht. unfold serialize. rewrite Ht. reflexivity.
Qed.

Lemma due_date_round_trip_witness :
  exists task,
    snd (add_task "a4" noon (Some "ann") (Some "tax") None (Some "medium")
           (Some "2024-03-15") None demo) = (demo ++ [task])%list
    /\ models.due_date task = Some (Datetime.mk 2024 3 15 0 0 0 0)
    /\ list_tasks (Some "ann") None (demo ++ [task])%list
       = Return (success
           [("tasks",
             VList (map serialize (exec_all (owned_by (Some "ann")) demo)
                    ++ [serialize task])%list)])
    /\ Py.get "due_date" (serialize task) = Some (VStr "2024-03-15T00:00:00")
    /\ (forall t, models.due_date t = None ->
                  Py.get "due_date" (serialize t) = Some VNone).
Proof.
  apply (due_date_round_trip "a4" noon (Some "ann") (Some "tax") None
           (Some "medium") None demo 2024 3 15); reflexivity.
Defined.

(** C4 (a malformed date is swallowed).  With a non-empty [user_id]
    and a [due_date] that [strptime] rejects, [add_task] still returns
    the success dictionary and the row it adds is the caller's task,
    pending and without a due date; [update_task_by_title] on an
    existing task still returns the success dictionary, and the row it
    stores is the one the same call without [due_date] would store, so
    the old due date stays and the other arguments are applied. *)
Theorem malformed_due_date_is_swallowed
    (new_id : string) (now : Datetime.datetime)
    (user_id title current_title new_title description priority status tags : pystr)
    (due : string) (st : Store) :
  truthy user_id = true ->
  Datetime.strptime due = None ->
  add_task new_id now user_id title description priority (Some due) tags st
  = (Return (success
       [("message", VStr ("Task '" ++ str title ++ "' added."));
        ("task", VDict [("id", VStr new_id);
                        ("title", of_pystr title);
                        ("status", VStr "pending")])]),
     (st ++ [models.mk new_id user_id title description priority
               (Some "pending") None tags (Some now) (Some now)])%list)
  /\
  (forall task,
     truthy current_title = true ->
     first (exec_all (fun t => owned_by user_id t && titled current_title t) st)
       = Some task ->
     exists task',
       update_task_by_title now user_id current_title new_title description
         priority status (Some due) tags st
       = (Return (success
            [("message", VStr ("Task '" ++ str current_title ++ "' updated."));
             ("task", VDict [("title", of_pystr (models.title task'))])]),
          session_update task' st)
       /\ get_by_id (models.id task) (session_update task' st) = Some task'
       /\ models.due_date task' = models.due_date task
       /\ task' = patch now new_title description priority status None tags task).
Proof.
  intros Hu Hbad. pose proof (parse_due_date_malformed due Hbad) as Hp. split.
  - rewrite add_task_returns by exact Hu. now rewrite Hp.
  - intros task Ht Hf.
    destruct (update_found now user_id current_title new_title description
                priority status (Some due) tags st task Hu Ht Hf) as [Hupd Hget].
    exists (patch now new_title description priority status (Some due) tags task).
    split; [exact Hupd|]. split; [exact Hget|]. split.
    + destruct (patch_fields now new_title description priority status
                  (Some due) tags task) as (_ & _ & _ & _ & _ & _ & _ & Du & _).
      rewrite Du, Hp. reflexivity.
    + unfold patch. rewrite Hp. reflexivity.
Qed.

Lemma malformed_due_date_is_swallowed_witness :
  add_task "a4" noon (Some "ann") (Some "tax") None (Some "medium")
    (Some "not-a-date") None demo
  = (Return (success
       [("message", VStr "Task 'tax' added.");
        ("task", VDict [("id", VStr "a4");
                        ("title", VStr "tax");
                        ("status", VStr "pending")])]),
     (demo ++ [models.mk "a4" (Some "ann") (Some "tax") None (Some "medium")
                 (Some "pending") None None (Some noon) (Some noon)])%list)
  /\
  (exists task',
     update_task_by_title noon (Some "ann") (Some "milk") None None
       (Some "medium") (Some "completed") (Some "not-a-date") None demo
     = (Return (success
          [("message", VStr "Task 'milk' updated.");
           ("task", VDict [("title", of_pystr (models.title task'))])]),
        session_update task' demo)
     /\ get_by_id "a1" (session_update task' demo) = Some task'
     /\ models.due_date task' = Some (Datetime.mk 2024 4 1 0 0 0 0)
     /\ task' = models.mk "a1" (Some "ann") (Some "milk") (Some "two litres")
                  (Some "medium") (Some "completed")
                  (Some (Datetime.mk 2024 4 1 0 0 0 0)) (Some "home")
                  (Some nine) (Some noon)).
Proof.
  destruct (malformed_due_date_is_swallowed "a4" noon (Some "ann") (Some "tax")
              (Some "milk") None None (Some "medium") (Some "completed") None
              "not-a-date" demo eq_refl eq_refl) as [Hadd Hupd].
  split; [exact Hadd|].
  apply (Hupd (models.mk "a1" (Some "ann") (Some "milk") (Some "two litres")
                 (Some "medium") (Some "pending")
                 (Some (Datetime.mk 2024 4 1 0 0 0 0)) (Some "home")
                 (Some nine) (Some nine))); reflexivity.
Defined.

(** ** Deleting every task of a user *)

Lemma filter_twice (p q : Task -> bool) (st : Store) :
  filter p (filter q st) = filter (fun r => q r && p r) st.
Proof.
  induction st as [|r st IH]; simpl; [reflexivity|].
  destruct (q r); simpl; [destruct (p r)|]; now rewrite IH.
Qed.

Lemma filter_everything (st : Store) : filter (fun _ => true) st = st.
Proof. induction st as [|r st IH]; simpl; [reflexivity|now rewrite IH]. Qed.

(** The loop [for t in tasks: session.delete(t)] removes the rows whose
    identifier is that of one of the [tasks]. *)
Lemma delete_loop (tasks : list Task) (st : Store) :
  fold_left (fun s t => session_delete t s) tasks st
  = filter (fun r => negb (existsb (fun t => models.id r =? models.id t) tasks)) st.
Proof.
  revert st. induction tasks as [|t tasks IH]; intros st; simpl.
  - symmetry. apply filter_everything.
  - rewrite IH. unfold session_delete. rewrite filter_twice.
    apply filter_ext. intros r. now rewrite negb_orb.
Qed.

(** Under the primary key, a row is known by its identifier. *)
Lemma unique_ids_inj (st : Store) (a b : Task) :
  unique_ids st -> In a st -> In b st -> models.id a = models.id b -> a = b.
Proof.
  unfold unique_ids. induction st as [|r st IH]; simpl; [contradiction|].
  intros Hnd Ha Hb E. inversion Hnd as [|x l Hnotin Hnd']. subst.
  destruct Ha as [->|Ha], Hb as [->|Hb].
  - reflexivity.
  - exfalso. apply Hnotin. rewrite E. now apply in_map.
  - exfalso. apply Hnotin. rewrite <- E. now apply in_map.
  - now apply IH.
Qed.

Lemma delete_loop_owned (user_id : pystr) (st : Store) :
  unique_ids st ->
  fold_left (fun s t => session_delete t s) (exec_all (owned_by user_id) st) st
  = filter (fun r => negb (owned_by user_id r)) st.
Proof.
  intros Hu. rewrite delete_loop. apply filter_ext_in. intros r Hr. f_equal.
  destruct (owned_by user_id r) eqn:Ho.
  - apply existsb_exists. exists r. split.
    + apply filter_In. now split.
    + apply String.eqb_refl.
  - apply not_true_is_false. intros Hex.
    apply existsb_exists in Hex as [t [Ht E]].
    apply filter_In in Ht as [Ht Hot]. apply String.eqb_eq in E.
    rewrite (unique_ids_inj st r t Hu Hr Ht E) in Ho. congruence.
Qed.

(** C5 (bulk delete and isolation).  On a table with a primary key and
    for a non-empty [user_id], [delete_all_tasks] leaves exactly the
    rows of the other users, in their order: the user owns nothing
    afterwards and what any other user owns is what it was. *)
Theorem delete_all_tasks_only_own (user_id : pystr) (st : Store) :
  unique_ids st ->
  truthy user_id = true ->
  let st' := snd (delete_all_tasks user_id st) in
  st' = filter (fun r => negb (owned_by user_id r)) st
  /\ exec_all (owned_by user_id) st' = []
  /\ (forall other, other <> user_id ->
        exec_all (owned_by other) st' = exec_all (owned_by other) st)
  /\ (forall t, In t st' <-> In t st /\ models.user_id t <> user_id)
  /\ fst (delete_all_tasks user_id st)
     = Return (success
         [("message",
           VStr ("Deleted "
                 ++ str_of_nat (List.length (exec_all (owned_by user_id) st))
                 ++ " tasks."))]).
Proof.
  intros Hu Ht. unfold delete_all_tasks. rewrite Ht. cbn [negb snd fst].
  rewrite (delete_loop_owned user_id st Hu).
  split; [reflexivity|]. split; [|split; [|split]].
  - unfold exec_all. rewrite filter_twice.
    induction st as [|r st' IH]; simpl; [reflexivity|].
    inversion Hu; subst. destruct (owned_by user_id r); simpl; auto.
  - intros other Hne. unfold exec_all. rewrite filter_twice.
    apply filter_ext. intros r. unfold owned_by.
    destruct (Py.eqb (models.user_id r) user_id) eqn:E1; simpl; [|reflexivity].
    apply pystr_eqb_eq in E1. symmetry. apply pystr_eqb_neq. congruence.
  - intros t. rewrite filter_In. unfold owned_by.
    rewrite negb_true_iff, pystr_eqb_neq. reflexivity.
  - reflexivity.
Qed.

Lemma delete_all_tasks_only_own_witness :
  snd (delete_all_tasks (Some "ann") demo)
  = [ models.mk "b1" (Some "bob") (Some "milk") None (Some "low")
        (Some "pending") None None (Some nine) (Some nine) ]
  /\ exec_all (owned_by (Some "ann")) (snd (delete_all_tasks (Some "ann") demo)) = []
  /\ exec_all (owned_by (Some "bob")) (snd (delete_all_tasks (Some "ann") demo))
     = exec_all (owned_by (Some "bob")) demo
  /\ fst (delete_all_tasks (Some "ann") demo)
     = Return (success [("message", VStr "Deleted 3 tasks.")]).
Proof.
  destruct (delete_all_tasks_only_own (Some "ann") demo
              (unique_ids_check demo eq_refl) eq_refl)
    as (H1 & H2 & H3 & _ & H5).
  split; [exact H1|]. split; [exact H2|]. split; [|exact H5].
  apply H3. discriminate.
Defined.

(** * Further properties of the tools *)

(** ** The guard on [user_id] *)

(** X1.  The six tools that start with [if not user_id: raise] raise
    [ValueError("user_id is required")] on a missing or empty
    [user_id], whatever the other arguments, and leave the table as it
    was. *)
Theorem missing_user_id_raises (new_id : string) (now : Datetime.datetime)
    (user_id title description priority due_date tags status : pystr)
    (st : Store) :
  truthy user_id = false ->
  add_task new_id now user_id title description priority due_date tags st
    = (Raise (ValueError "user_id is required"), st)
  /\ list_tasks user_id status st = Raise (ValueError "user_id is required")
  /\ get_analytics user_id st = Raise (ValueError "user_id is required")
  /\ delete_all_tasks user_id st = (Raise (ValueError "user_id is required"), st)
  /\ complete_all_tasks user_id st
     = (Raise (ValueError "user_id is required"), st)
  /\ mark_all_tasks_incomplete user_id st
     = (Raise (ValueError "user_id is required"), st).
Proof.
  intros H.
  unfold add_task, list_tasks, get_analytics, delete_all_tasks,
    complete_all_tasks, mark_all_tasks_incomplete.
  rewrite H. repeat split.
Qed.

Lemma missing_user_id_raises_witness :
  add_task "a4" noon (Some "") (Some "tax") None (Some "medium") None None demo
    = (Raise (ValueError "user_id is required"), demo)
  /\ list_tasks (Some "") (Some "pending") demo
     = Raise (ValueError "user_id is required")
  /\ get_analytics (Some "") demo = Raise (ValueError "user_id is required")
  /\ delete_all_tasks (Some "") demo
     = (Raise (ValueError "user_id is required"), demo)
  /\ complete_all_tasks (Some "") demo
     = (Raise (ValueError "user_id is required"), demo)
  /\ mark_all_tasks_incomplete (Some "") demo
     = (Raise (ValueError "user_id is required"), demo).
Proof.
  apply (missing_user_id_raises "a4" noon (Some "") (Some "tax") None
           (Some "medium") None None (Some "pending") demo).
  reflexivity.
Defined.

(** ** Deleting one task *)

Lemma session_delete_absent (task : Task) (st : Store) :
  ~ In (models.id task) (map models.id st) -> session_delete task st = st.
Proof.
  unfold session_delete. induction st as [|r st IH]; simpl; intros H.
  - reflexivity.
  - destruct (models.id r =? models.id task) eqn:E.
    + apply String.eqb_eq in E. exfalso. apply H. now left.
    + simpl. f_equal. apply IH. intros Hin. apply H. now right.
Qed.

(** Deleting a row of a table with a primary key takes one row away
    from every selection the row belongs to. *)
Lemma session_delete_count (p : Task -> bool) (task : Task) (st : Store) :
  unique_ids st -> In task st -> p task = true ->
  S (List.length (filter p (session_delete task st)))
  = List.length (filter p st).
Proof.
  unfold unique_ids. induction st as [|r st IH]; simpl; [contradiction|].
  intros Hnd Hin Hp. inversion Hnd as [|x l Hnotin Hnd']. subst.
  destruct Hin as [->|Hin].
  - rewrite String.eqb_refl, Hp. simpl.
    fold (session_delete task st).
    now rewrite (session_delete_absent task st Hnotin).
  - assert ((models.id r =? models.id task) = false) as E.
    { apply String.eqb_neq. intros E. apply Hnotin. rewrite E.
      now apply in_map. }
    rewrite E. simpl. fold (session_delete task st).
    destruct (p r); simpl; [f_equal|]; now apply IH.
Qed.

Lemma session_delete_In (task : Task) (st : Store) (r : Task) :
  unique_ids st -> In task st ->
  (In r (session_delete task st) <-> In r st /\ r <> task).
Proof.
  intros Hu Hin. unfold session_delete. rewrite filter_In.
  rewrite negb_true_iff, String.eqb_neq. split.
  - intros [Hr Hne]. split; [exact Hr|]. intros ->. now apply Hne.
  - intros [Hr Hne]. split; [exact Hr|]. intros E. apply Hne.
    now apply (unique_ids_inj st r task).
Qed.

Lemma delete_found (user_id task_title : pystr) (st : Store) (task : Task) :
  truthy user_id = true ->
  truthy task_title = true ->
  first (exec_all (fun t => owned_by user_id t && titled task_title t) st)
    = Some task ->
  delete_task user_id task_title st
  = (Return (success
       [("message", VStr ("Task '" ++ str task_title ++ "' deleted."))]),
     session_delete task st).
Proof.
  intros Hu Ht Hf. unfold delete_task. rewrite Hu, Ht, Hf. reflexivity.
Qed.

(** X2.  On a table with a primary key, a [delete_task] that finds its
    task removes that row and no other: the table loses exactly one
    row, every other row stays, and the number of the user's tasks
    under that title goes down by exactly one, so a second task with
    the same title survives. *)
Theorem delete_task_removes_one (user_id task_title : pystr) (st : Store)
    (task : Task) :
  unique_ids st ->
  truthy user_id = true ->
  truthy task_title = true ->
  first (exec_all (fun t => owned_by user_id t && titled task_title t) st)
    = Some task ->
  fst (delete_task user_id task_title st)
  = Return (success
      [("message", VStr ("Task '" ++ str task_title ++ "' deleted."))])
  /\ (forall r, In r (snd (delete_task user_id task_title st))
                <-> In r st /\ r <> task)
  /\ S (List.length (snd (delete_task user_id task_title st)))
     = List.length st
  /\ S (List.length
          (exec_all (fun t => owned_by user_id t && titled task_title t)
             (snd (delete_task user_id task_title st))))
     = List.length
         (exec_all (fun t => owned_by user_id t && titled task_title t) st).
Proof.
  intros Hu Hus Ht Hf. rewrite (delete_found _ _ _ _ Hus Ht Hf). cbn [fst snd].
  destruct (first_Some _ _ _ Hf) as [Hin Hp].
  split; [reflexivity|]. split; [|split].
  - intros r. now apply session_delete_In.
  - rewrite <- (filter_everything (session_delete task st)).
    rewrite <- (filter_everything st) at 2.
    now apply session_delete_count.
  - unfold exec_all. now apply session_delete_count.
Qed.

Lemma delete_task_removes_one_witness :
  fst (delete_task (Some "ann") (Some "milk") twins)
  = Return (success [("message", VStr "Task 'milk' deleted.")])
  /\ (forall r, In r (snd (delete_task (Some "ann") (Some "milk") twins))
                <-> In r twins
                    /\ r <> models.mk "a1" (Some "ann") (Some "milk") None
                              (Some "medium") (Some "pending") None None
                              (Some nine) (Some nine))
  /\ S (List.length (snd (delete_task (Some "ann") (Some "milk") twins))) = 3
  /\ S (List.length
          (exec_all (fun t => owned_by (Some "ann") t && titled (Some "milk") t)
             (snd (delete_task (Some "ann") (Some "milk") twins)))) = 2.
Proof.
  apply (delete_task_removes_one (Some "ann") (Some "milk") twins
           (models.mk "a1" (Some "ann") (Some "milk") None (Some "medium")
              (Some "pending") None None (Some nine) (Some nine))
           (unique_ids_check twins eq_refl) eq_refl eq_refl eq_refl).
Defined.

(** X3.  When exactly one task of the user carries the title, deleting
    it and asking again yields the [Task not found.] dictionary, and
    the second call changes nothing. *)
Theorem delete_task_twice (user_id task_title : pystr) (st : Store) :
  unique_ids st ->
  truthy user_id = true ->
  truthy task_title = true ->
  List.length (exec_all (fun t => owned_by user_id t && titled task_title t) st)
    = 1%nat ->
  delete_task user_id task_title (snd (delete_task user_id task_title st))
  = (Return (error "Task not found."),
     snd (delete_task user_id task_title st)).
Proof.
  intros Hu Hus Ht Hone.
  destruct (first (exec_all (fun t => owned_by user_id t && titled task_title t) st))
    as [task|] eqn:Hf.
  - destruct (first_Some _ _ _ Hf) as [Hin Hp].
    rewrite (delete_found _ _ _ _ Hus Ht Hf). cbn [snd].
    pose proof (session_delete_count
                  (fun t => owned_by user_id t && titled task_title t)
                  task st Hu Hin Hp) as Hc.
    unfold exec_all in Hone. rewrite Hone in Hc.
    unfold delete_task. rewrite Hus, Ht. cbn [negb orb].
    unfold exec_all.
    destruct (filter _ (session_delete task st)); [reflexivity|discriminate Hc].
  - unfold first, exec_all in *.
    destruct (filter _ st); [discriminate Hone|discriminate Hf].
Qed.

Lemma delete_task_twice_witness :
  delete_task (Some "ann") (Some "rent")
    (snd (delete_task (Some "ann") (Some "rent") demo))
  = (Return (error "Task not found."),
     snd (delete_task (Some "ann") (Some "rent") demo)).
Proof.
  apply (delete_task_twice (Some "ann") (Some "rent") demo
           (unique_ids_check demo eq_refl)); reflexivity.
Defined.

(** ** Writing one status to every task of a user *)

Lemma set_status_twice (a b : pystr) (t : Task) :
  models.set_status b (models.set_status a t) = models.set_status b t.
Proof. reflexivity. Qed.

(** On a table with a primary key the identifiers of the rows a user
    owns are borne by those rows only. *)
Lemma owned_ids (user_id : pystr) (st : Store) (r : Task) :
  unique_ids st -> In r st ->
  existsb (fun t => models.id r =? models.id t) (exec_all (owned_by user_id) st)
  = owned_by user_id r.
Proof.
  intros Hu Hr. destruct (owned_by user_id r) eqn:Ho.
  - apply existsb_exists. exists r. split.
    + apply filter_In. now split.
    + apply String.eqb_refl.
  - apply not_true_is_false. intros Hex.
    apply existsb_exists in Hex as [t [Ht E]].
    apply filter_In in Ht as [Ht Hot]. apply String.eqb_eq in E.
    rewrite (unique_ids_inj st r t Hu Hr Ht E) in Ho. congruence.
Qed.

(** The loop [for t in tasks: t.status = literal; session.add(t)]:
    as long as each of the [tasks] agrees with the rows that share its
    identifier, the loop rewrites the status of exactly those rows. *)
Lemma status_loop (literal : pystr) (tasks : list Task) (s : Store) :
  (forall t r, In t tasks -> In r s -> models.id r = models.id t ->
               models.set_status literal r = models.set_status literal t) ->
  fold_left (fun s t => session_update (models.set_status literal t) s) tasks s
  = map (fun r => if existsb (fun t => models.id r =? models.id t) tasks
                  then models.set_status literal r else r) s.
Proof.
  revert s. induction tasks as [|t tasks IH]; intros s H; simpl.
  - symmetry. apply map_id.
  - rewrite IH.
    + unfold session_update. rewrite map_map. apply map_ext_in.
      intros r Hr. cbn [models.id models.set_status].
      destruct (models.id r =? models.id t) eqn:E; simpl.
      * apply String.eqb_eq in E.
        rewrite <- (H t r (or_introl eq_refl) Hr E).
        cbn [models.id models.set_status]. rewrite set_status_twice.
        now destruct (existsb _ tasks).
      * reflexivity.
    + intros t' r' Ht' Hr' E'. unfold session_update in Hr'.
      apply in_map_iff in Hr' as [r [<- Hr]].
      cbn [models.id models.set_status] in *.
      destruct (models.id r =? models.id t) eqn:E.
      * apply String.eqb_eq in E. cbn [models.id models.set_status] in E'.
        rewrite set_status_twice.
        rewrite <- (H t r (or_introl eq_refl) Hr E).
        apply (H t' r (or_intror Ht') Hr). congruence.
      * apply (H t' r (or_intror Ht') Hr E').
Qed.

Lemma status_loop_owned (literal : string) (user_id : pystr) (st : Store) :
  unique_ids st ->
  fold_left (fun s t => session_update (models.set_status (Some literal) t) s)
    (exec_all (owned_by user_id) st) st
  = with_status literal user_id st.
Proof.
  intros Hu. rewrite status_loop.
  - unfold with_status. apply map_ext_in. intros r Hr.
    now rewrite (owned_ids user_id st r Hu Hr).
  - intros t r Ht Hr E. apply filter_In in Ht as [Ht _].
    now rewrite (unique_ids_inj st r t Hu Hr Ht E).
Qed.

Lemma with_status_ids (literal : string) (user_id : pystr) (st : Store) :
  map models.id (with_status literal user_id st) = map models.id st.
Proof.
  unfold with_status. rewrite map_map. apply map_ext. intros r.
  now destruct (owned_by user_id r).
Qed.

Lemma with_status_own (literal : string) (user_id : pystr) (st : Store) :
  exec_all (owned_by user_id) (with_status literal user_id st)
  = map (models.set_status (Some literal)) (exec_all (owned_by user_id) st).
Proof.
  unfold with_status, exec_all. induction st as [|r st IH]; simpl; [reflexivity|].
  destruct (owned_by user_id r) eqn:E.
  - unfold owned_by in *. cbn [models.user_id models.set_status].
    rewrite E. simpl. now rewrite IH.
  - rewrite E. exact IH.
Qed.

Lemma with_status_others (literal : string) (user_id other : pystr) (st : Store) :
  other <> user_id ->
  exec_all (owned_by other) (with_status literal user_id st)
  = exec_all (owned_by other) st.
Proof.
  intros Hne. unfold with_status, exec_all.
  induction st as [|r st IH]; simpl; [reflexivity|].
  destruct (owned_by user_id r) eqn:E.
  - unfold owned_by in *. cbn [models.user_id models.set_status].
    apply pystr_eqb_eq in E.
    assert (Py.eqb (models.user_id r) other = false) as ->.
    { apply pystr_eqb_neq. congruence. }
    exact IH.
  - destruct (owned_by other r); [f_equal|]; exact IH.
Qed.

Lemma with_status_twice (a b : string) (user_id : pystr) (st : Store) :
  with_status b user_id (with_status a user_id st) = with_status b user_id st.
Proof.
  unfold with_status. rewrite map_map. apply map_ext. intros r.
  destruct (owned_by user_id r) eqn:E.
  - unfold owned_by in *. cbn [models.user_id models.set_status].
    now rewrite E.
  - now rewrite E.
Qed.

Lemma complete_all_tasks_store (user_id : pystr) (st : Store) :
  unique_ids st -> truthy user_id = true ->
  complete_all_tasks user_id st
  = (Return (success
       [("message",
         VStr ("Marked "
               ++ str_of_nat (List.length (exec_all (owned_by user_id) st))
               ++ " tasks completed."))]),
     with_status "completed" user_id st).
Proof.
  intros Hu Ht. unfold complete_all_tasks. rewrite Ht. cbn [negb].
  now rewrite (status_loop_owned "completed" user_id st Hu).
Qed.

Lemma mark_all_tasks_incomplete_store (user_id : pystr) (st : Store) :
  unique_ids st -> truthy user_id = true ->
  mark_all_tasks_incomplete user_id st
  = (Return (success
       [("message",
         VStr ("Marked "
               ++ str_of_nat (List.length (exec_all (owned_by user_id) st))
               ++ " tasks pending."))]),
     with_status "pending" user_id st).
Proof.
  intros Hu Ht. unfold mark_all_tasks_incomplete. rewrite Ht. cbn [negb].
  now rewrite (status_loop_owned "pending" user_id st Hu).
Qed.

(** X4.  On a table with a primary key, [complete_all_tasks] reports
    the number of tasks the user owns, turns each of them into the same
    row with status [completed], and leaves the rows of every other
    user, the number of rows and their order untouched. *)
Theorem complete_all_tasks_effect (user_id : pystr) (st : Store) :
  unique_ids st ->
  truthy user_id = true ->
  complete_all_tasks user_id st
  = (Return (success
       [("message",
         VStr ("Marked "
               ++ str_of_nat (List.length (exec_all (owned_by user_id) st))
               ++ " tasks completed."))]),
     with_status "completed" user_id st)
  /\ exec_all (owned_by user_id) (snd (complete_all_tasks user_id st))
     = map (models.set_status (Some "completed")) (exec_all (owned_by user_id) st)
  /\ (forall t, In t (snd (complete_all_tasks user_id st)) ->
                owned_by user_id t = true ->
                models.status t = Some "completed")
  /\ (forall other, other <> user_id ->
        exec_all (owned_by other) (snd (complete_all_tasks user_id st))
        = exec_all (owned_by other) st)
  /\ map models.id (snd (complete_all_tasks user_id st)) = map models.id st.
Proof.
  intros Hu Ht. rewrite (complete_all_tasks_store user_id st Hu Ht). cbn [snd].
  split; [reflexivity|]. split; [apply with_status_own|]. split; [|split].
  - intros t Hin Ho.
    assert (In t (exec_all (owned_by user_id)
                    (with_status "completed" user_id st))) as H.
    { apply filter_In. now split. }
    rewrite with_status_own in H. apply in_map_iff in H as [r [<- _]].
    reflexivity.
  - intros other Hne. now apply with_status_others.
  - apply with_status_ids.
Qed.

Lemma complete_all_tasks_effect_witness :
  complete_all_tasks (Some "ann") demo
  = (Return (success [("message", VStr "Marked 3 tasks completed.")]),
     with_status "completed" (Some "ann") demo)
  /\ exec_all (owned_by (Some "bob")) (snd (complete_all_tasks (Some "ann") demo))
     = exec_all (owned_by (Some "bob")) demo
  /\ map models.id (snd (complete_all_tasks (Some "ann") demo))
     = ["a1"; "b1"; "a2"; "a3"].
Proof.
  destruct (complete_all_tasks_effect (Some "ann") demo
              (unique_ids_check demo eq_refl) eq_refl)
    as (H1 & _ & _ & H4 & H5).
  split; [exact H1|]. split; [|exact H5].
  apply H4. discriminate.
Defined.

(** X5.  On a table with a primary key, [mark_all_tasks_incomplete]
    reports the number of tasks the user owns, turns each of them into
    the same row with status [pending], and leaves the rows of every
    other user, the number of rows and their order untouched. *)
Theorem mark_all_tasks_incomplete_effect (user_id : pystr) (st : Store) :
  unique_ids st ->
  truthy user_id = true ->
  mark_all_tasks_incomplete user_id st
  = (Return (success
       [("message",
         VStr ("Marked "
               ++ str_of_nat (List.length (exec_all (owned_by user_id) st))
               ++ " tasks pending."))]),
     with_status "pending" user_id st)
  /\ exec_all (owned_by user_id) (snd (mark_all_tasks_incomplete user_id st))
     = map (models.set_status (Some "pending")) (exec_all (owned_by user_id) st)
  /\ (forall t, In t (snd (mark_all_tasks_incomplete user_id st)) ->
                owned_by user_id t = true ->
                models.status t = Some "pending")
  /\ (forall other, other <> user_id ->
        exec_all (owned_by other) (snd (mark_all_tasks_incomplete user_id st))
        = exec_all (owned_by other) st)
  /\ map models.id (snd (mark_all_tasks_incomplete user_id st))
     = map models.id st.
Proof.
  intros Hu Ht. rewrite (mark_all_tasks_incomplete_store user_id st Hu Ht).
  cbn [snd].
  split; [reflexivity|]. split; [apply with_status_own|]. split; [|split].
  - intros t Hin Ho.
    assert (In t (exec_all (owned_by user_id)
                    (with_status "pending" user_id st))) as H.
    { apply filter_In. now split. }
    rewrite with_status_own in H. apply in_map_iff in H as [r [<- _]].
    reflexivity.
  - intros other Hne. now apply with_status_others.
  - apply with_status_ids.
Qed.

Lemma mark_all_tasks_incomplete_effect_witness :
  mark_all_tasks_incomplete (Some "ann") demo
  = (Return (success [("message", VStr "Marked 3 tasks pending.")]),
     with_status "pending" (Some "ann") demo)
  /\ exec_all (owned_by (Some "bob"))
       (snd (mark_all_tasks_incomplete (Some "ann") demo))
     = exec_all (owned_by (Some "bob")) demo
  /\ map models.id (snd (mark_all_tasks_incomplete (Some "ann") demo))
     = ["a1"; "b1"; "a2"; "a3"].
Proof.
  destruct (mark_all_tasks_incomplete_effect (Some "ann") demo
              (unique_ids_check demo eq_refl) eq_refl)
    as (H1 & _ & _ & H4 & H5).
  split; [exact H1|]. split; [|exact H5].
  apply H4. discriminate.
Defined.

(** X6.  On a table with a primary key, completing every task of a
    user and then marking them all incomplete leaves every task of the
    user pending, gives the table a direct [mark_all_tasks_incomplete]
    would give, and both calls report the same number of tasks. *)
Theorem complete_then_reset (user_id : pystr) (st : Store) :
  unique_ids st ->
  truthy user_id = true ->
  let n := List.length (exec_all (owned_by user_id) st) in
  let st1 := snd (complete_all_tasks user_id st) in
  fst (complete_all_tasks user_id st)
  = Return (success
      [("message", VStr ("Marked " ++ str_of_nat n ++ " tasks completed."))])
  /\ mark_all_tasks_incomplete user_id st1
     = (Return (success
          [("message", VStr ("Marked " ++ str_of_nat n ++ " tasks pending."))]),
        snd (mark_all_tasks_incomplete user_id st))
  /\ (forall t, In t (snd (mark_all_tasks_incomplete user_id st1)) ->
                owned_by user_id t = true -> models.status t = Some "pending").
Proof.
  intros Hu Ht n st1. subst n st1.
  rewrite (complete_all_tasks_store user_id st Hu Ht). cbn [fst snd].
  assert (unique_ids (with_status "completed" user_id st)) as Hu1.
  { unfold unique_ids. now rewrite with_status_ids. }
  rewrite (mark_all_tasks_incomplete_store user_id _ Hu1 Ht).
  rewrite (mark_all_tasks_incomplete_store user_id st Hu Ht). cbn [snd].
  rewrite with_status_twice, with_status_own, length_map.
  split; [reflexivity|]. split; [reflexivity|].
  intros t Hin Ho.
  assert (In t (exec_all (owned_by user_id) (with_status "pending" user_id st)))
    as H by (apply filter_In; now split).
  rewrite with_status_own in H. apply in_map_iff in H as [r [<- _]].
  reflexivity.
Qed.

Lemma complete_then_reset_witness :
  fst (complete_all_tasks (Some "ann") demo)
  = Return (success [("message", VStr "Marked 3 tasks completed.")])
  /\ mark_all_tasks_incomplete (Some "ann")
       (snd (complete_all_tasks (Some "ann") demo))
     = (Return (success [("message", VStr "Marked 3 tasks pending.")]),
        snd (mark_all_tasks_incomplete (Some "ann") demo))
  /\ (forall t,
        In t (snd (mark_all_tasks_incomplete (Some "ann")
                     (snd (complete_all_tasks (Some "ann") demo)))) ->
        owned_by (Some "ann") t = true -> models.status t = Some "pending").
Proof.
  apply (complete_then_reset (Some "ann") demo
           (unique_ids_check demo eq_refl) eq_refl).
Defined.

(** ** Analytics after a bulk action *)

Lemma filter_set_status_same (literal : string) (rows : list Task) :
  filter (has_status (Some literal)) (map (models.set_status (Some literal)) rows)
  = map (models.set_status (Some literal)) rows.
Proof.
  induction rows as [|r rows IH]; simpl; [reflexivity|].
  unfold has_status at 1. cbn [models.status models.set_status].
  rewrite pystr_eqb_refl. now rewrite IH.
Qed.

Lemma filter_set_status_other (a b : string) (rows : list Task) :
  a <> b ->
  filter (has_status (Some a)) (map (models.set_status (Some b)) rows) = [].
Proof.
  intros Hne. induction rows as [|r rows IH]; simpl; [reflexivity|].
  unfold has_status at 1. cbn [models.status models.set_status].
  assert (Py.eqb (Some b) (Some a) = false) as ->.
  { apply pystr_eqb_neq. congruence. }
  exact IH.
Qed.

Lemma owned_none_left (user_id : pystr) (st : Store) :
  exec_all (owned_by user_id) (filter (fun r => negb (owned_by user_id r)) st) = [].
Proof.
  unfold exec_all. rewrite filter_twice.
  induction st as [|r st IH]; simpl; [reflexivity|].
  now destruct (owned_by user_id r).
Qed.

(** X7.  On a table with a primary key and for a user owning [n]
    tasks: after [delete_all_tasks] the analytics show no task at all;
    after [complete_all_tasks] they show [n] tasks, all completed and
    none pending; after [mark_all_tasks_incomplete] they show [n]
    tasks, none completed and all pending. *)
Theorem analytics_after_bulk (user_id : pystr) (st : Store) :
  unique_ids st ->
  truthy user_id = true ->
  let n := List.length (exec_all (owned_by user_id) st) in
  get_analytics user_id (snd (delete_all_tasks user_id st))
  = Return (success
      [("analytics",
        VDict [("tasks_total", VInt 0); ("tasks_completed", VInt 0);
               ("tasks_pending", VInt 0); ("productivity_score", VInt 0)])])
  /\ get_analytics user_id (snd (complete_all_tasks user_id st))
     = Return (success
         [("analytics",
           VDict [("tasks_total", VInt (Z.of_nat n));
                  ("tasks_completed", VInt (Z.of_nat n));
                  ("tasks_pending", VInt 0);
                  ("productivity_score", VInt (productivity_score n n))])])
  /\ get_analytics user_id (snd (mark_all_tasks_incomplete user_id st))
     = Return (success
         [("analytics",
           VDict [("tasks_total", VInt (Z.of_nat n));
                  ("tasks_completed", VInt 0);
                  ("tasks_pending", VInt (Z.of_nat n));
                  ("productivity_score", VInt (productivity_score 0 n))])]).
Proof.
  intros Hu Ht n. subst n. split; [|split].
  - unfold delete_all_tasks. rewrite Ht. cbn [negb snd].
    rewrite (delete_loop_owned user_id st Hu).
    rewrite (get_analytics_counts _ _ Ht). cbv zeta.
    rewrite owned_none_left. reflexivity.
  - rewrite (complete_all_tasks_store user_id st Hu Ht). cbn [snd].
    rewrite (get_analytics_counts _ _ Ht). cbv zeta.
    rewrite with_status_own, filter_set_status_same.
    rewrite filter_set_status_other by discriminate.
    rewrite length_map. reflexivity.
  - rewrite (mark_all_tasks_incomplete_store user_id st Hu Ht). cbn [snd].
    rewrite (get_analytics_counts _ _ Ht). cbv zeta.
    rewrite with_status_own, filter_set_status_same.
    rewrite filter_set_status_other by discriminate.
    rewrite length_map. reflexivity.
Qed.

Lemma analytics_after_bulk_witness :
  get_analytics (Some "ann") (snd (delete_all_tasks (Some "ann") demo))
  = Return (success
      [("analytics",
        VDict [("tasks_total", VInt 0); ("tasks_completed", VInt 0);
               ("tasks_pending", VInt 0); ("productivity_score", VInt 0)])])
  /\ get_analytics (Some "ann") (snd (complete_all_tasks (Some "ann") demo))
     = Return (success
         [("analytics",
           VDict [("tasks_total", VInt 3); ("tasks_completed", VInt 3);
                  ("tasks_pending", VInt 0);
                  ("productivity_score", VInt (productivity_score 3 3))])])
  /\ get_analytics (Some "ann")
       (snd (mark_all_tasks_incomplete (Some "ann") demo))
     = Return (success
         [("analytics",
           VDict [("tasks_total", VInt 3); ("tasks_completed", VInt 0);
                  ("tasks_pending", VInt 3);
                  ("productivity_score", VInt (productivity_score 0 3))])]).
Proof.
  apply (analytics_after_bulk (Some "ann") demo
           (unique_ids_check demo eq_refl) eq_refl).
Defined.

Example productivity_score_all_done : productivity_score 3 3 = 100%Z.
Proof. vm_compute. reflexivity. Qed.

(** ** The primary key is kept *)

Lemma unique_ids_filter (p : Task -> bool) (st : Store) :
  unique_ids st -> unique_ids (filter p st).
Proof.
  unfold unique_ids. induction st as [|r st IH]; simpl; intros H; [exact H|].
  inversion H as [|x l Hnotin Hnd]. subst.
  destruct (p r); simpl; [|now apply IH].
  constructor; [|now apply IH].
  intros Hin. apply Hnotin. apply in_map_iff in Hin as [t [E Ht]].
  apply filter_In in Ht as [Ht _]. rewrite <- E. now apply in_map.
Qed.

Lemma session_update_ids (t : Task) (st : Store) :
  map models.id (session_update t st) = map models.id st.
Proof.
  unfold session_update. rewrite map_map. apply map_ext. intros r.
  destruct (models.id r =? models.id t) eqn:E; [|reflexivity].
  apply String.eqb_eq in E. now rewrite E.
Qed.

Lemma update_loop_ids (f : Task -> Task) (tasks : list Task) (st : Store) :
  map models.id (fold_left (fun s t => session_update (f t) s) tasks st)
  = map models.id st.
Proof.
  revert st. induction tasks as [|t tasks IH]; intros st; simpl; [reflexivity|].
  rewrite IH. apply session_update_ids.
Qed.

Lemma unique_ids_insert (t : Task) (st : Store) :
  unique_ids st -> ~ In (models.id t) (map models.id st) ->
  unique_ids (session_insert t st).
Proof.
  unfold unique_ids, session_insert. intros Hu Hfresh.
  rewrite map_app. simpl. apply NoDup_app; [exact Hu| |].
  - constructor; [intros []|constructor].
  - intros x Hx [<-|[]]. now apply Hfresh.
Qed.

(** X8.  Every tool that commits keeps the primary key: from a table
    with unique ids, [delete_task], [update_task_by_title],
    [delete_all_tasks], [complete_all_tasks] and
    [mark_all_tasks_incomplete] lead to a table with unique ids
    whatever their arguments, and so does [add_task] when the
    identifier of the new row is not in use. *)
Theorem tools_keep_unique_ids (new_id : string) (now : Datetime.datetime)
    (user_id title new_title description priority status due_date tags : pystr)
    (st : Store) :
  unique_ids st ->
  (~ In new_id (map models.id st) ->
   unique_ids (snd (add_task new_id now user_id title description priority
                      due_date tags st)))
  /\ unique_ids (snd (delete_task user_id title st))
  /\ unique_ids (snd (update_task_by_title now user_id title new_title
                        description priority status due_date tags st))
  /\ unique_ids (snd (delete_all_tasks user_id st))
  /\ unique_ids (snd (complete_all_tasks user_id st))
  /\ unique_ids (snd (mark_all_tasks_incomplete user_id st)).
Proof.
  intros Hu. repeat split.
  - intros Hfresh. unfold add_task.
    destruct (negb (truthy user_id)); cbn [snd]; [exact Hu|].
    now apply unique_ids_insert.
  - unfold delete_task.
    destruct (negb (truthy user_id) || negb (truthy title)); cbn [snd];
      [exact Hu|].
    destruct (first _); cbn [snd]; [|exact Hu].
    now apply unique_ids_filter.
  - unfold update_task_by_title.
    destruct (negb (truthy user_id) || negb (truthy title)); cbn [snd];
      [exact Hu|].
    destruct (first _); cbn [snd]; [|exact Hu].
    unfold unique_ids. now rewrite session_update_ids.
  - unfold delete_all_tasks.
    destruct (negb (truthy user_id)); cbn [snd]; [exact Hu|].
    rewrite delete_loop. now apply unique_ids_filter.
  - unfold complete_all_tasks.
    destruct (negb (truthy user_id)); cbn [snd]; [exact Hu|].
    unfold unique_ids. now rewrite update_loop_ids.
  - unfold mark_all_tasks_incomplete.
    destruct (negb (truthy user_id)); cbn [snd]; [exact Hu|].
    unfold unique_ids. now rewrite update_loop_ids.
Qed.

Lemma tools_keep_unique_ids_witness :
  unique_ids (snd (add_task "a4" noon (Some "ann") (Some "milk") None
                     (Some "medium") None None twins))
  /\ unique_ids (snd (delete_task (Some "ann") (Some "milk") twins))
  /\ unique_ids (snd (update_task_by_title noon (Some "ann") (Some "milk")
                        (Some "tea") None (Some "medium") None None None twins))
  /\ unique_ids (snd (delete_all_tasks (Some "ann") twins))
  /\ unique_ids (snd (complete_all_tasks (Some "ann") twins))
  /\ unique_ids (snd (mark_all_tasks_incomplete (Some "ann") twins)).
Proof.
  destruct (tools_keep_unique_ids "a4" noon (Some "ann") (Some "milk")
              (Some "tea") None (Some "medium") None None None twins
              (unique_ids_check twins eq_refl)) as [Hadd Hrest].
  split; [|exact Hrest].
  apply Hadd. simpl. intuition discriminate.
Defined.

(** ** No tool reaches another user's tasks *)

(** A selection survives a rewriting of the rows that fixes the rows
    selected and never moves a row into the selection. *)
Lemma filter_map_frame (p : Task -> bool) (f : Task -> Task) (st : Store) :
  (forall r, In r st -> f r = r \/ (p r = false /\ p (f r) = false)) ->
  filter p (map f st) = filter p st.
Proof.
  induction st as [|r st IH]; simpl; intros H; [reflexivity|].
  rewrite IH by (intros x Hx; apply H; now right).
  destruct (H r (or_introl eq_refl)) as [->|[-> ->]]; reflexivity.
Qed.

Lemma session_delete_frame (p : Task -> bool) (task : Task) (st : Store) :
  unique_ids st -> In task st -> p task = false ->
  filter p (session_delete task st) = filter p st.
Proof.
  intros Hu Hin Hp. unfold session_delete. rewrite filter_twice.
  apply filter_ext_in. intros r Hr.
  destruct (models.id r =? models.id task) eqn:E; simpl; [|reflexivity].
  apply String.eqb_eq in E.
  rewrite (unique_ids_inj st r task Hu Hr Hin E). now rewrite Hp.
Qed.

Lemma session_update_frame (p : Task -> bool) (task task' : Task) (st : Store) :
  unique_ids st -> In task st -> models.id task' = models.id task ->
  p task = false -> p task' = false ->
  filter p (session_update task' st) = filter p st.
Proof.
  intros Hu Hin Hid Hp Hp'. unfold session_update. apply filter_map_frame.
  intros r Hr. destruct (models.id r =? models.id task') eqn:E; [|now left].
  right. apply String.eqb_eq in E. rewrite Hid in E.
  rewrite (unique_ids_inj st r task Hu Hr Hin E). now split.
Qed.

Lemma owned_by_other (user_id other : pystr) (t : Task) :
  other <> user_id -> owned_by user_id t = true -> owned_by other t = false.
Proof.
  unfold owned_by. intros Hne H. apply pystr_eqb_eq in H.
  apply pystr_eqb_neq. congruence.
Qed.

(** What [list_tasks] and [get_analytics] return for a user depends on
    the rows of that user only. *)
Lemma reads_own_rows (user_id status : pystr) (st1 st2 : Store) :
  exec_all (owned_by user_id) st1 = exec_all (owned_by user_id) st2 ->
  list_tasks user_id status st1 = list_tasks user_id status st2
  /\ get_analytics user_id st1 = get_analytics user_id st2.
Proof.
  intros H. unfold list_tasks, get_analytics. rewrite H. split; [|reflexivity].
  destruct (negb (truthy user_id)); [reflexivity|].
  destruct (truthy status && negb (Py.eqb status (Some "all"))).
  - unfold exec_all in *.
    rewrite <- (filter_twice (has_status status) (owned_by user_id) st1).
    rewrite <- (filter_twice (has_status status) (owned_by user_id) st2).
    now rewrite H.
  - now rewrite H.
Qed.

Lemma add_task_frame (new_id : string) (now : Datetime.datetime)
    (user_id other title description priority due_date tags : pystr) (st : Store) :
  other <> user_id ->
  exec_all (owned_by other)
    (snd (add_task new_id now user_id title description priority due_date tags st))
  = exec_all (owned_by other) st.
Proof.
  intros Hne. unfold add_task.
  destruct (negb (truthy user_id)); cbn [snd]; [reflexivity|].
  unfold session_insert. rewrite exec_all_app.
  unfold owned_by at 2. cbn [models.user_id].
  assert (Py.eqb user_id other = false) as ->
    by (apply pystr_eqb_neq; congruence).
  apply app_nil_r.
Qed.

Lemma delete_task_frame (user_id other title : pystr) (st : Store) :
  unique_ids st -> other <> user_id ->
  exec_all (owned_by other) (snd (delete_task user_id title st))
  = exec_all (owned_by other) st.
Proof.
  intros Hu Hne. unfold delete_task.
  destruct (negb (truthy user_id) || negb (truthy title)); cbn [snd];
    [reflexivity|].
  destruct (first _) as [task|] eqn:Hf; cbn [snd]; [|reflexivity].
  apply first_Some in Hf as [Hin Hp]. apply andb_prop in Hp as [Ho _].
  apply session_delete_frame; [exact Hu|exact Hin|].
  now apply (owned_by_other user_id).
Qed.

Lemma update_task_frame (now : Datetime.datetime)
    (user_id other title new_title description priority status due_date tags : pystr)
    (st : Store) :
  unique_ids st -> other <> user_id ->
  exec_all (owned_by other)
    (snd (update_task_by_title now user_id title new_title description
            priority status due_date tags st))
  = exec_all (owned_by other) st.
Proof.
  intros Hu Hne. unfold update_task_by_title.
  destruct (negb (truthy user_id) || negb (truthy title)); cbn [snd];
    [reflexivity|].
  destruct (first _) as [task|] eqn:Hf; cbn [snd]; [|reflexivity].
  apply first_Some in Hf as [Hin Hp]. apply andb_prop in Hp as [Ho _].
  destruct (patch_fields now new_title description priority status due_date
              tags task) as (Hid & Huid & _).
  apply (session_update_frame _ task); [exact Hu|exact Hin|exact Hid| |].
  - now apply (owned_by_other user_id).
  - unfold owned_by. rewrite Huid. now apply (owned_by_other user_id).
Qed.

Lemma bulk_frame (user_id other : pystr) (st : Store) :
  unique_ids st -> other <> user_id ->
  exec_all (owned_by other) (snd (delete_all_tasks user_id st))
  = exec_all (owned_by other) st
  /\ exec_all (owned_by other) (snd (complete_all_tasks user_id st))
     = exec_all (owned_by other) st
  /\ exec_all (owned_by other) (snd (mark_all_tasks_incomplete user_id st))
     = exec_all (owned_by other) st.
Proof.
  intros Hu Hne. destruct (truthy user_id) eqn:Ht.
  - rewrite (complete_all_tasks_store user_id st Hu Ht).
    rewrite (mark_all_tasks_incomplete_store user_id st Hu Ht).
    unfold delete_all_tasks. rewrite Ht. cbn [negb snd].
    rewrite (delete_loop_owned user_id st Hu).
    split; [|split]; try now apply with_status_others.
    unfold exec_all. rewrite filter_twice. apply filter_ext. intros r.
    destruct (owned_by user_id r) eqn:E; simpl; [|reflexivity].
    symmetry. now apply (owned_by_other user_id).
  - unfold delete_all_tasks, complete_all_tasks, mark_all_tasks_incomplete.
    rewrite Ht. repeat split.
Qed.

(** X9.  On a table with unique ids, no call made for one user touches
    what another user owns: after any of the six committing tools has
    run for [user_id], the rows of every [other] user are the same, and
    so is everything [list_tasks] and [get_analytics] return for that
    user. *)
Theorem other_users_unaffected (new_id : string) (now : Datetime.datetime)
    (user_id other title new_title description priority status due_date tags : pystr)
    (st st' : Store) :
  unique_ids st ->
  other <> user_id ->
  st' = snd (add_task new_id now user_id title description priority due_date tags st)
  \/ st' = snd (delete_task user_id title st)
  \/ st' = snd (update_task_by_title now user_id title new_title description
                  priority status due_date tags st)
  \/ st' = snd (delete_all_tasks user_id st)
  \/ st' = snd (complete_all_tasks user_id st)
  \/ st' = snd (mark_all_tasks_incomplete user_id st) ->
  exec_all (owned_by other) st' = exec_all (owned_by other) st
  /\ (forall filter_status,
        list_tasks other filter_status st' = list_tasks other filter_status st)
  /\ get_analytics other st' = get_analytics other st.
Proof.
  intros Hu Hne Hst'.
  assert (exec_all (owned_by other) st' = exec_all (owned_by other) st) as H.
  { destruct (bulk_frame user_id other st Hu Hne) as (B1 & B2 & B3).
    destruct Hst' as [->|[->|[->|[->|[->| ->]]]]].
    - now apply add_task_frame.
    - now apply delete_task_frame.
    - now apply update_task_frame.
    - exact B1.
    - exact B2.
    - exact B3. }
  split; [exact H|]. split.
  - intros s. now apply reads_own_rows.
  - now apply (reads_own_rows other None).
Qed.

Lemma other_users_unaffected_witness :
  exec_all (owned_by (Some "bob"))
    (snd (update_task_by_title noon (Some "ann") (Some "milk") (Some "tea")
            None (Some "high") (Some "completed") None None demo))
  = exec_all (owned_by (Some "bob")) demo
  /\ (forall filter_status,
        list_tasks (Some "bob") filter_status
          (snd (update_task_by_title noon (Some "ann") (Some "milk") (Some "tea")
                  None (Some "high") (Some "completed") None None demo))
        = list_tasks (Some "bob") filter_status demo)
  /\ get_analytics (Some "bob")
       (snd (update_task_by_title noon (Some "ann") (Some "milk") (Some "tea")
               None (Some "high") (Some "completed") None None demo))
     = get_analytics (Some "bob") demo.
Proof.
  apply (other_users_unaffected "a4" noon (Some "ann") (Some "bob") (Some "milk")
           (Some "tea") None (Some "high") (Some "completed") None None demo).
  - apply unique_ids_check. reflexivity.
  - discriminate.
  - right. right. left. reflexivity.
Defined.

(** ** Updating one task *)

(** X10.  On a table with unique ids, an [update_task_by_title] that
    finds its task replaces that row by the patched one and touches no
    other row; the ids and their order stay, and the patched row keeps
    the id, the owner and the creation time of the old one. *)
Theorem update_touches_one_row (now : Datetime.datetime)
    (user_id current_title new_title description priority status due_date tags : pystr)
    (st : Store) (task : Task) :
  unique_ids st ->
  truthy user_id = true ->
  truthy current_title = true ->
  first (exec_all (fun t => owned_by user_id t && titled current_title t) st)
    = Some task ->
  exists task',
    snd (update_task_by_title now user_id current_title new_title description
           priority status due_date tags st) = session_update task' st
    /\ (forall r, In r (session_update task' st)
                  <-> r = task' \/ (In r st /\ r <> task))
    /\ map models.id (session_update task' st) = map models.id st
    /\ models.id task' = models.id task
    /\ models.user_id task' = models.user_id task
    /\ models.created_at task' = models.created_at task.
Proof.
  intros Hu Hus Ht Hf.
  destruct (update_found now user_id current_title new_title description
              priority status due_date tags st task Hus Ht Hf) as [Hupd _].
  destruct (patch_fields now new_title description priority status due_date
              tags task) as (Hid & Huid & _ & _ & _ & _ & _ & _ & Hcr & _).
  apply first_Some in Hf as [Hin _].
  exists (patch now new_title description priority status due_date tags task).
  rewrite Hupd. cbn [snd]. split; [reflexivity|].
  split; [|split; [apply session_update_ids|now repeat split]].
  intros r. unfold session_update. rewrite in_map_iff, Hid. split.
  - intros [x [Hx Hxin]].
    destruct (models.id x =? models.id task) eqn:E.
    + left. now symmetry.
    + right. subst x. split; [exact Hxin|].
      intros ->. rewrite String.eqb_refl in E. discriminate.
  - intros [->|[Hr Hne]].
    + exists task. rewrite String.eqb_refl. now split.
    + exists r. split; [|exact Hr].
      destruct (models.id r =? models.id task) eqn:E; [|reflexivity].
      apply String.eqb_eq in E. exfalso. apply Hne.
      now apply (unique_ids_inj st r task).
Qed.

Lemma update_touches_one_row_witness :
  exists task',
    snd (update_task_by_title noon (Some "ann") (Some "milk") (Some "tea")
           None None (Some "completed") None None twins)
    = session_update task' twins
    /\ (forall r, In r (session_update task' twins)
                  <-> r = task'
                      \/ (In r twins
                          /\ r <> models.mk "a1" (Some "ann") (Some "milk") None
                                    (Some "medium") (Some "pending") None None
                                    (Some nine) (Some nine)))
    /\ map models.id (session_update task' twins) = ["a1"; "b1"; "a2"]
    /\ models.id task' = "a1"
    /\ models.user_id task' = Some "ann"
    /\ models.created_at task' = Some nine.
Proof.
  apply (update_touches_one_row noon (Some "ann") (Some "milk") (Some "tea")
           None None (Some "completed") None None twins
           (models.mk "a1" (Some "ann") (Some "milk") None (Some "medium")
              (Some "pending") None None (Some nine) (Some nine))
           (unique_ids_check twins eq_refl) eq_refl eq_refl eq_refl).
Defined.

(** ** Creating, then reading or deleting *)

(** X11.  After an [add_task] for a non-empty [user_id], [list_tasks]
    shows what it showed before followed by the record of the new task,
    whose status is [pending]; this holds without a filter and under
    the filter [pending], while under any other filter the result is
    what it was. *)
Theorem add_task_then_list (new_id : string) (now : Datetime.datetime)
    (user_id title description priority due_date tags filter_status : pystr)
    (st : Store) :
  truthy user_id = true ->
  let record :=
    VDict [("id", VStr new_id);
           ("title", of_pystr title);
           ("description", of_pystr description);
           ("priority", of_pystr priority);
           ("status", VStr "pending");
           ("due_date", match parse_due_date due_date with
                        | Some d => VStr (Datetime.isoformat d)
                        | None => VNone
                        end);
           ("created_at", VStr (Datetime.isoformat now))] in
  let st' := snd (add_task new_id now user_id title description priority
                    due_date tags st) in
  list_tasks user_id None st'
  = Return (success
      [("tasks",
        VList (map serialize (exec_all (owned_by user_id) st) ++ [record])%list)])
  /\ list_tasks user_id (Some "pending") st'
     = Return (success
         [("tasks",
           VList (map serialize
                    (exec_all (fun t => owned_by user_id t
                                        && has_status (Some "pending") t) st)
                  ++ [record])%list)])
  /\ (truthy filter_status = true ->
      filter_status <> Some "all" ->
      filter_status <> Some "pending" ->
      list_tasks user_id filter_status st' = list_tasks user_id filter_status st).
Proof.
  intros Hu record st'. subst record st'.
  rewrite add_task_returns by exact Hu. cbn [snd].
  split; [|split].
  - rewrite list_tasks_unfiltered by exact Hu.
    rewrite exec_all_app. unfold owned_by at 2. cbn [models.user_id].
    rewrite pystr_eqb_refl, map_app. reflexivity.
  - unfold list_tasks. rewrite Hu. cbn [negb truthy Py.eqb String.eqb andb].
    simpl (negb _). cbv iota.
    rewrite exec_all_app. unfold owned_by at 2, has_status at 2.
    cbn [models.user_id models.status].
    rewrite !pystr_eqb_refl, map_app. reflexivity.
  - intros Hs Hall Hpend. unfold list_tasks. rewrite Hu, Hs.
    apply pystr_eqb_neq in Hall. rewrite Hall. cbn [negb andb].
    rewrite exec_all_app. unfold owned_by at 2, has_status at 2.
    cbn [models.user_id models.status].
    assert (Py.eqb (Some "pending") filter_status = false) as ->
      by (apply pystr_eqb_neq; congruence).
    rewrite andb_false_r, app_nil_r. reflexivity.
Qed.

Lemma add_task_then_list_witness :
  list_tasks (Some "cat") None
    (snd (add_task "c1" noon (Some "cat") (Some "nap") None (Some "medium")
            (Some "2024-3-5") None demo))
  = Return (success
      [("tasks",
        VList [VDict [("id", VStr "c1"); ("title", VStr "nap");
                      ("description", VNone); ("priority", VStr "medium");
                      ("status", VStr "pending");
                      ("due_date", VStr "2024-03-05T00:00:00");
                      ("created_at", VStr "2024-03-15T12:00:00")]])])
  /\ list_tasks (Some "cat") (Some "completed")
       (snd (add_task "c1" noon (Some "cat") (Some "nap") None (Some "medium")
               (Some "2024-3-5") None demo))
     = list_tasks (Some "cat") (Some "completed") demo.
Proof.
  destruct (add_task_then_list "c1" noon (Some "cat") (Some "nap") None
              (Some "medium") (Some "2024-3-5") None (Some "completed") demo
              eq_refl) as (H1 & _ & H3).
  split; [exact H1|].
  apply H3; [reflexivity|discriminate|discriminate].
Defined.

(** X12.  Creating a task under a title the user does not have yet,
    with an identifier that is not in use, and deleting it by that
    title gives the table back as it was. *)
Theorem add_task_then_delete (new_id : string) (now : Datetime.datetime)
    (user_id title description priority due_date tags : pystr) (st : Store) :
  truthy user_id = true ->
  truthy title = true ->
  ~ In new_id (map models.id st) ->
  (forall t, In t st -> ~ matches user_id title t) ->
  delete_task user_id title
    (snd (add_task new_id now user_id title description priority due_date tags st))
  = (Return (success
       [("message", VStr ("Task '" ++ str title ++ "' deleted."))]),
     st).
Proof.
  intros Hu Ht Hfresh Hno.
  rewrite add_task_returns by exact Hu. cbn [snd].
  set (task := models.mk new_id user_id title description priority
                 (Some "pending") (parse_due_date due_date) tags
                 (Some now) (Some now)).
  assert (exec_all (fun t => owned_by user_id t && titled title t) st = []) as Hnone.
  { pose proof (no_match_first _ _ _ Hno) as H. unfold first in H.
    destruct (exec_all _ st); [reflexivity|discriminate H]. }
  rewrite (delete_found user_id title (st ++ [task])%list task Hu Ht).
  - f_equal. unfold session_delete. rewrite filter_app. simpl.
    rewrite String.eqb_refl. simpl. rewrite app_nil_r.
    apply (session_delete_absent task st Hfresh).
  - rewrite exec_all_app, Hnone. unfold owned_by, titled. simpl.
    now rewrite !pystr_eqb_refl.
Qed.

Lemma add_task_then_delete_witness :
  delete_task (Some "ann") (Some "tax")
    (snd (add_task "a4" noon (Some "ann") (Some "tax") None (Some "medium")
            None None demo))
  = (Return (success [("message", VStr "Task 'tax' deleted.")]), demo).
Proof.
  apply (add_task_then_delete "a4" noon (Some "ann") (Some "tax") None
           (Some "medium") None None demo).
  - reflexivity.
  - reflexivity.
  - simpl. intuition discriminate.
  - intros t [<-|[<-|[<-|[<-|[]]]]] [_ H]; discriminate H.
Defined.

(** ** The counts of the analytics *)

Lemma disjoint_counts (a b : Task -> bool) (rows : list Task) :
  (forall r, a r = true -> b r = true -> False) ->
  (List.length (filter a rows) + List.length (filter b rows)
   <= List.length rows)%nat
  /\ ((List.length (filter a rows) + List.length (filter b rows)
       = List.length rows)%nat
      <-> forall r, In r rows -> a r = true \/ b r = true).
Proof.
  intros Hd. induction rows as [|r rows [IHle IHeq]]; simpl.
  - split; [lia|]. split; [intros _ r []|reflexivity].
  - pose proof (Hd r) as Hr.
    destruct (a r) eqn:Ea, (b r) eqn:Eb; simpl.
    + exfalso. now apply Hr.
    + split; [lia|]. split.
      * intros E r' [<-|Hin]; [now left|]. apply IHeq; [lia|exact Hin].
      * intros H. f_equal. apply IHeq. intros r' Hin. apply H. now right.
    + split; [lia|]. split.
      * intros E r' [<-|Hin]; [now right|]. apply IHeq; [lia|exact Hin].
      * intros H. rewrite Nat.add_succ_r. f_equal. apply IHeq.
        intros r' Hin. apply H. now right.
    + split; [lia|]. split.
      * intros E. lia.
      * intros H. destruct (H r (or_introl eq_refl)); congruence.
Qed.

(** X13.  In what [get_analytics] returns for a non-empty [user_id],
    completed and pending together never exceed the total, and they
    add up to it exactly when every task of the user has one of the
    two statuses. *)
Theorem analytics_counts_add_up (user_id : pystr) (st : Store) :
  truthy user_id = true ->
  exists total completed pending : nat,
    get_analytics user_id st
    = Return (success
        [("analytics",
          VDict [("tasks_total", VInt (Z.of_nat total));
                 ("tasks_completed", VInt (Z.of_nat completed));
                 ("tasks_pending", VInt (Z.of_nat pending));
                 ("productivity_score",
                  VInt (productivity_score completed total))])])
    /\ (completed + pending <= total)%nat
    /\ ((completed + pending = total)%nat
        <-> forall t, In t st -> models.user_id t = user_id ->
                      models.status t = Some "completed"
                      \/ models.status t = Some "pending").
Proof.
  intros Hu. do 3 eexists. split; [now apply get_analytics_counts|].
  destruct (disjoint_counts (has_status (Some "completed"))
              (has_status (Some "pending")) (exec_all (owned_by user_id) st))
    as [Hle Heq].
  { unfold has_status. intros r Ha Hb.
    apply pystr_eqb_eq in Ha. apply pystr_eqb_eq in Hb. congruence. }
  split; [exact Hle|]. rewrite Heq. unfold exec_all, has_status, owned_by.
  split.
  - intros H t Hin Hown.
    destruct (H t) as [E|E].
    + apply filter_In. split; [exact Hin|]. now apply pystr_eqb_eq.
    + left. now apply pystr_eqb_eq.
    + right. now apply pystr_eqb_eq.
  - intros H t Hin. apply filter_In in Hin as [Hin Hown].
    apply pystr_eqb_eq in Hown. rewrite !pystr_eqb_eq. now apply H.
Qed.

Lemma analytics_counts_add_up_witness :
  exists total completed pending : nat,
    get_analytics (Some "ann") demo
    = Return (success
        [("analytics",
          VDict [("tasks_total", VInt (Z.of_nat total));
                 ("tasks_completed", VInt (Z.of_nat completed));
                 ("tasks_pending", VInt (Z.of_nat pending));
                 ("productivity_score",
                  VInt (productivity_score completed total))])])
    /\ (completed + pending <= total)%nat
    /\ ((completed + pending = total)%nat
        <-> forall t, In t demo -> models.user_id t = Some "ann" ->
                      models.status t = Some "completed"
                      \/ models.status t = Some "pending").
Proof.
  apply (analytics_counts_add_up (Some "ann") demo). reflexivity.
Defined.

(** X14.  The numbers of [get_analytics] are the sizes of what
    [list_tasks] returns: the total is the length of the unfiltered
    list, completed and pending are the lengths of the lists under the
    filters [completed] and [pending]. *)
Theorem list_and_analytics_agree (user_id : pystr) (st : Store) :
  truthy user_id = true ->
  exists every done todo : list value,
    list_tasks user_id None st = Return (success [("tasks", VList every)])
    /\ list_tasks user_id (Some "completed") st
       = Return (success [("tasks", VList done)])
    /\ list_tasks user_id (Some "pending") st
       = Return (success [("tasks", VList todo)])
    /\ get_analytics user_id st
       = Return (success
           [("analytics",
             VDict [("tasks_total", VInt (Z.of_nat (List.length every)));
                    ("tasks_completed", VInt (Z.of_nat (List.length done)));
                    ("tasks_pending", VInt (Z.of_nat (List.length todo)));
                    ("productivity_score",
                     VInt (productivity_score (List.length done)
                             (List.length every)))])]).
Proof.
  intros Hu. do 3 eexists.
  split; [now apply list_tasks_unfiltered|].
  split; [unfold list_tasks; rewrite Hu; reflexivity|].
  split; [unfold list_tasks; rewrite Hu; reflexivity|].
  rewrite (get_analytics_counts _ _ Hu). cbv zeta.
  rewrite !length_map. unfold exec_all. rewrite !filter_twice. reflexivity.
Qed.

Lemma list_and_analytics_agree_witness :
  exists every done todo : list value,
    list_tasks (Some "ann") None demo = Return (success [("tasks", VList every)])
    /\ list_tasks (Some "ann") (Some "completed") demo
       = Return (success [("tasks", VList done)])
    /\ list_tasks (Some "ann") (Some "pending") demo
       = Return (success [("tasks", VList todo)])
    /\ get_analytics (Some "ann") demo
       = Return (success
           [("analytics",
             VDict [("tasks_total", VInt (Z.of_nat (List.length every)));
                    ("tasks_completed", VInt (Z.of_nat (List.length done)));
                    ("tasks_pending", VInt (Z.of_nat (List.length todo)));
                    ("productivity_score",
                     VInt (productivity_score (List.length done)
                             (List.length every)))])]).
Proof.
  apply (list_and_analytics_agree (Some "ann") demo). reflexivity.
Defined.

(** ** What the tools store as a due date *)

(** [strptime] returns calendar dates at midnight only. *)
Lemma strptime_sound (s : string) (d : Datetime.datetime) :
  Datetime.strptime s = Some d ->
  exists y m dd,
    d = Datetime.mk y m dd 0 0 0 0 /\ Datetime.valid_date y m dd = true.
Proof.
  unfold Datetime.strptime.
  destruct (Datetime.re_Y s) as [[y r0]|]; [|discriminate].
  destruct r0 as [|c0 r1]; [discriminate|].
  destruct (Ascii.eqb c0 "-") eqn:E0;
    [apply Ascii.eqb_eq in E0; subst c0
    |destruct c0 as [[] [] [] [] [] [] [] []]; try discriminate E0;
     intros H; discriminate H].
  destruct (Datetime.re_m r1) as [[m r2]|]; [|discriminate].
  destruct r2 as [|c1 r3]; [discriminate|].
  destruct (Ascii.eqb c1 "-") eqn:E1;
    [apply Ascii.eqb_eq in E1; subst c1
    |destruct c1 as [[] [] [] [] [] [] [] []]; try discriminate E1;
     intros H; discriminate H].
  destruct (Datetime.re_d r3) as [[dd r4]|]; [|discriminate].
  destruct r4; [|discriminate].
  destruct (Datetime.valid_date y m dd) eqn:Hv; [|discriminate].
  intros H. inversion H. now exists y, m, dd.
Qed.

Lemma re_m_unpadded (m : Z) (rest : string) :
  (1 <= m <= 12)%Z ->
  Datetime.re_m (unpadded m (String "-" rest)) = Some (m, String "-" rest).
Proof.
  intros Hm. revert m Hm.
  assert (forall m, (1 <= m < 1 + Z.of_nat 12)%Z ->
          Datetime.re_m (unpadded m (String "-" rest))
          = Some (m, String "-" rest)) as H.
  { apply (interval_cases _ 1%Z 12). intros k Hk.
    do 12 (destruct k as [|k]; [reflexivity|]). lia. }
  intros m Hm. apply H. lia.
Qed.

Lemma re_d_unpadded (d : Z) :
  (1 <= d <= 31)%Z -> Datetime.re_d (unpadded d "") = Some (d, "").
Proof.
  intros Hd. revert d Hd.
  assert (forall d, (1 <= d < 1 + Z.of_nat 31)%Z ->
          Datetime.re_d (unpadded d "") = Some (d, "")) as H.
  { apply (interval_cases _ 1%Z 31). intros k Hk.
    do 31 (destruct k as [|k]; [reflexivity|]). lia. }
  intros d Hd. apply H. lia.
Qed.

(** [strptime] also reads a calendar date whose month and day are
    written without their leading zero. *)
Lemma strptime_ymd_unpadded (y m d : Z) :
  Datetime.valid_date y m d = true ->
  Datetime.strptime (ymd_unpadded y m d) = Some (Datetime.mk y m d 0 0 0 0).
Proof.
  intros Hv. destruct (valid_date_bounds y m d Hv) as (Hy & Hm & Hd).
  pose proof (days_in_month_le_31 y m) as Hdm.
  unfold Datetime.strptime, ymd_unpadded.
  rewrite re_Y_fmt04 by lia.
  rewrite re_m_unpadded by lia.
  rewrite re_d_unpadded by lia.
  rewrite Hv. reflexivity.
Qed.

(** X15.  Whatever text [add_task] is given as [due_date], the row it
    creates has either no due date, shown as null by [list_tasks], or a
    calendar date at midnight, shown as the zero-padded date followed
    by [T00:00:00].  The second case includes dates written without
    leading zeros in month and day: such a text is accepted and shown
    zero-padded. *)
Theorem stored_due_date_is_canonical (new_id : string) (now : Datetime.datetime)
    (user_id title description priority due_date tags : pystr) (st : Store)
    (y m d : Z) :
  truthy user_id = true ->
  (exists task,
     snd (add_task new_id now user_id title description priority due_date tags st)
     = (st ++ [task])%list
     /\ ((models.due_date task = None
          /\ Py.get "due_date" (serialize task) = Some VNone)
         \/ exists y' m' d',
              Datetime.valid_date y' m' d' = true
              /\ models.due_date task = Some (Datetime.mk y' m' d' 0 0 0 0)
              /\ Py.get "due_date" (serialize task)
                 = Some (VStr (Datetime.ymd y' m' d' ++ "T00:00:00"))))
  /\ (Datetime.valid_date y m d = true ->
      exists task,
        snd (add_task new_id now user_id title description priority
               (Some (ymd_unpadded y m d)) tags st)
        = (st ++ [task])%list
        /\ models.due_date task = Some (Datetime.mk y m d 0 0 0 0)
        /\ Py.get "due_date" (serialize task)
           = Some (VStr (Datetime.ymd y m d ++ "T00:00:00"))).
Proof.
  intros Hu. split.
  - rewrite add_task_returns by exact Hu. cbn [snd].
    eexists. split; [reflexivity|]. cbn [models.due_date].
    destruct (parse_due_date due_date) as [dt|] eqn:Hp.
    + right. pose proof Hp as Hs. unfold parse_due_date in Hs.
      destruct (truthy due_date); [|discriminate].
      destruct due_date as [s|]; [|discriminate].
      destruct (strptime_sound s dt Hs) as (y' & m' & d' & -> & Hv).
      exists y', m', d'. split; [exact Hv|]. split; reflexivity.
    + left. split; reflexivity.
  - intros Hv. rewrite add_task_returns by exact Hu. cbn [snd].
    eexists. split; [reflexivity|]. cbn [models.due_date].
    assert (parse_due_date (Some (ymd_unpadded y m d))
            = Some (Datetime.mk y m d 0 0 0 0)) as Hp.
    { unfold parse_due_date.
      assert (truthy (Some (ymd_unpadded y m d)) = true) as ->
        by reflexivity.
      now apply strptime_ymd_unpadded. }
    rewrite Hp. split; [reflexivity|].
    unfold serialize. cbn [models.due_date]. reflexivity.
Qed.

Lemma stored_due_date_is_canonical_witness :
  exists task,
    snd (add_task "a4" noon (Some "ann") (Some "tax") None (Some "medium")
           (Some "2024-3-5") None demo)
    = (demo ++ [task])%list
    /\ models.due_date task = Some (Datetime.mk 2024 3 5 0 0 0 0)
    /\ Py.get "due_date" (serialize task) = Some (VStr "2024-03-05T00:00:00").
Proof.
  apply (proj2 (stored_due_date_is_canonical "a4" noon (Some "ann") (Some "tax")
                  None (Some "medium") (Some "2024-3-5") None demo 2024 3 5
                  eq_refl)).
  reflexivity.
Defined.

Example ymd_unpadded_ex : ymd_unpadded 2024 3 5 = "2024-3-5".
Proof. reflexivity. Qed.

Example lenient_due_date :
  Py.get "due_date"
    (serialize (models.mk "a4" (Some "ann") (Some "tax") None (Some "medium")
                  (Some "pending") (parse_due_date (Some "2024-3-5")) None
                  (Some noon) (Some noon)))
  = Some (VStr "2024-03-05T00:00:00").
Proof. reflexivity. Qed.

(** X16.  An [update_task_by_title] that finds its task and is given
    the text of a calendar date as [due_date] stores that date at
    midnight in the row, which [list_tasks] then renders as the same
    text followed by [T00:00:00]. *)
Theorem update_sets_due_date (now : Datetime.datetime)
    (user_id current_title new_title description priority status tags : pystr)
    (st : Store) (task : Task) (y m d : Z) :
  truthy user_id = true ->
  truthy current_title = true ->
  first (exec_all (fun t => owned_by user_id t && titled current_title t) st)
    = Some task ->
  Datetime.valid_date y m d = true ->
  exists task',
    get_by_id (models.id task)
      (snd (update_task_by_title now user_id current_title new_title
              description priority status (Some (Datetime.ymd y m d)) tags st))
    = Some task'
    /\ models.due_date task' = Some (Datetime.mk y m d 0 0 0 0)
    /\ Py.get "due_date" (serialize task')
       = Some (VStr (Datetime.ymd y m d ++ "T00:00:00")).
Proof.
  intros Hu Ht Hf Hv.
  destruct (update_found now user_id current_title new_title description
              priority status (Some (Datetime.ymd y m d)) tags st task Hu Ht Hf)
    as [Hupd Hget].
  eexists. rewrite Hupd. cbn [snd]. split; [exact Hget|].
  destruct (patch_fields now new_title description priority status
              (Some (Datetime.ymd y m d)) tags task)
    as (_ & _ & _ & _ & _ & _ & _ & Du & _).
  rewrite (parse_due_date_ymd y m d Hv) in Du.
  split; [exact Du|]. unfold serialize. rewrite Du. reflexivity.
Qed.

Lemma update_sets_due_date_witness :
  exists task',
    get_by_id "a2"
      (snd (update_task_by_title noon (Some "ann") (Some "rent") None None None
              None (Some "2024-12-31") None demo))
    = Some task'
    /\ models.due_date task' = Some (Datetime.mk 2024 12 31 0 0 0 0)
    /\ Py.get "due_date" (serialize task') = Some (VStr "2024-12-31T00:00:00").
Proof.
  apply (update_sets_due_date noon (Some "ann") (Some "rent") None None None
           None None demo
           (models.mk "a2" (Some "ann") (Some "rent") None (Some "high")
              (Some "completed") None None (Some nine) (Some nine))
           2024 12 31); reflexivity.
Defined.

(** ** Which of several matching rows is addressed *)

Lemma replace_absent (i : string) (task' : Task) (st : Store) :
  ~ In i (map models.id st) ->
  map (fun r => if models.id r =? i then task' else r) st = st.
Proof.
  induction st as [|r st IH]; simpl; intros H.
  - reflexivity.
  - destruct (models.id r =? i) eqn:E.
    + apply String.eqb_eq in E. exfalso. apply H. now left.
    + f_equal. apply IH. intros Hin. apply H. now right.
Qed.

Section FirstMatch.

Local Open Scope list_scope.

Lemma first_in_order (p : Task -> bool) (before after : list Task) (task : Task) :
  (forall t, In t before -> p t = false) -> p task = true ->
  first (exec_all p (before ++ task :: after)) = Some task.
Proof.
  intros Hb Hp. unfold first, exec_all. rewrite filter_app.
  assert (filter p before = []) as ->.
  { induction before as [|r before IH]; simpl; [reflexivity|].
    rewrite (Hb r (or_introl eq_refl)). apply IH.
    intros t Ht. apply Hb. now right. }
  simpl. now rewrite Hp.
Qed.

Lemma unique_ids_split (before after : list Task) (task : Task) :
  unique_ids (before ++ task :: after) ->
  ~ In (models.id task) (map models.id before)
  /\ ~ In (models.id task) (map models.id after).
Proof.
  unfold unique_ids. rewrite map_app. simpl. intros H.
  apply NoDup_remove_2 in H. split; intros Hin; apply H; apply in_or_app;
    [now left|now right].
Qed.

(** X17.  Both tools that address a task by title act on the first
    matching row in store order: on a table with unique ids in which
    no row before [task] matches and [task] does, [delete_task] removes
    [task] and [update_task_by_title] puts the patched row in its
    place, every row before and after staying where it was. *)
Theorem first_match_is_addressed (now : Datetime.datetime)
    (user_id title new_title description priority status due_date tags : pystr)
    (before after : list Task) (task : Task) :
  unique_ids (before ++ task :: after) ->
  truthy user_id = true ->
  truthy title = true ->
  (forall t, In t before -> ~ matches user_id title t) ->
  matches user_id title task ->
  snd (delete_task user_id title (before ++ task :: after))
  = (before ++ after)%list
  /\ snd (update_task_by_title now user_id title new_title description
            priority status due_date tags (before ++ task :: after))
     = (before
        ++ patch now new_title description priority status due_date tags task
        :: after)%list.
Proof.
  intros Hu Hus Ht Hb Hm.
  assert (first (exec_all (fun t => owned_by user_id t && titled title t)
                   (before ++ task :: after)) = Some task) as Hf.
  { apply first_in_order.
    - intros t Hin. apply not_true_is_false. intros E.
      apply (Hb t Hin). now apply by_title_matches.
    - now apply by_title_matches. }
  destruct (unique_ids_split before after task Hu) as [Hnb Hna].
  split.
  - rewrite (delete_found _ _ _ _ Hus Ht Hf). cbn [snd].
    unfold session_delete. rewrite filter_app. simpl.
    rewrite String.eqb_refl. simpl.
    fold (session_delete task before). fold (session_delete task after).
    now rewrite !session_delete_absent.
  - destruct (update_found now user_id title new_title description priority
                status due_date tags _ task Hus Ht Hf) as [Hupd _].
    rewrite Hupd. cbn [snd].
    destruct (patch_fields now new_title description priority status due_date
                tags task) as (Hid & _).
    set (task' := patch now new_title description priority status due_date
                    tags task) in *.
    unfold session_update. rewrite map_app. cbn [map].
    rewrite Hid, String.eqb_refl.
    now rewrite !replace_absent.
Qed.

Lemma first_match_is_addressed_witness :
  snd (delete_task (Some "ann") (Some "milk") twins)
  = [ models.mk "b1" (Some "bob") (Some "milk") None (Some "low")
        (Some "completed") None None (Some nine) (Some nine);
      models.mk "a2" (Some "ann") (Some "milk") (Some "oat") (Some "high")
        (Some "pending") None None (Some nine) (Some nine) ]
  /\ snd (update_task_by_title noon (Some "ann") (Some "milk") None None None
            (Some "completed") None None twins)
     = [ models.mk "a1" (Some "ann") (Some "milk") None (Some "medium")
           (Some "completed") None None (Some nine) (Some noon);
         models.mk "b1" (Some "bob") (Some "milk") None (Some "low")
           (Some "completed") None None (Some nine) (Some nine);
         models.mk "a2" (Some "ann") (Some "milk") (Some "oat") (Some "high")
           (Some "pending") None None (Some nine) (Some nine) ].
Proof.
  apply (first_match_is_addressed noon (Some "ann") (Some "milk") None None None
           (Some "completed") None None []
           [ models.mk "b1" (Some "bob") (Some "milk") None (Some "low")
               (Some "completed") None None (Some nine) (Some nine);
             models.mk "a2" (Some "ann") (Some "milk") (Some "oat") (Some "high")
               (Some "pending") None None (Some nine) (Some nine) ]
           (models.mk "a1" (Some "ann") (Some "milk") None (Some "medium")
              (Some "pending") None None (Some nine) (Some nine))).
  - apply (unique_ids_check twins). reflexivity.
  - reflexivity.
  - reflexivity.
  - intros t [].
  - split; reflexivity.
Defined.

End FirstMatch.

(** ** Renaming a task *)

Lemma replace_count_out (p : Task -> bool) (task task' : Task) (st : Store) :
  unique_ids st -> In task st -> p task = true -> p task' = false ->
  S (List.length
       (filter p (map (fun r => if models.id r =? models.id task
                                then task' else r) st)))
  = List.length (filter p st).
Proof.
  unfold unique_ids. induction st as [|r st IH]; simpl; [contradiction|].
  intros Hnd Hin Hp Hp'. inversion Hnd as [|x l Hnotin Hnd']. subst.
  destruct Hin as [->|Hin].
  - rewrite String.eqb_refl, Hp, Hp'. simpl.
    now rewrite (replace_absent _ task' st Hnotin).
  - assert ((models.id r =? models.id task) = false) as ->.
    { apply String.eqb_neq. intros E. apply Hnotin. rewrite E.
      now apply in_map. }
    destruct (p r); simpl; [f_equal|]; now apply IH.
Qed.

Lemma replace_count_in (p : Task -> bool) (task task' : Task) (st : Store) :
  unique_ids st -> In task st -> p task = false -> p task' = true ->
  List.length
    (filter p (map (fun r => if models.id r =? models.id task
                             then task' else r) st))
  = S (List.length (filter p st)).
Proof.
  unfold unique_ids. induction st as [|r st IH]; simpl; [contradiction|].
  intros Hnd Hin Hp Hp'. inversion Hnd as [|x l Hnotin Hnd']. subst.
  destruct Hin as [->|Hin].
  - rewrite String.eqb_refl, Hp, Hp'. simpl.
    now rewrite (replace_absent _ task' st Hnotin).
  - assert ((models.id r =? models.id task) = false) as ->.
    { apply String.eqb_neq. intros E. apply Hnotin. rewrite E.
      now apply in_map. }
    destruct (p r); simpl; [f_equal|]; now apply IH.
Qed.

(** X18.  On a table with unique ids, an [update_task_by_title] that
    finds its task and is given a non-empty [new_title] different from
    the current one returns the new title, and afterwards the user has
    one task less under the old title and one more under the new. *)
Theorem update_renames (now : Datetime.datetime)
    (user_id current_title new_title description priority status due_date tags : pystr)
    (st : Store) (task : Task) :
  unique_ids st ->
  truthy user_id = true ->
  truthy current_title = true ->
  truthy new_title = true ->
  new_title <> current_title ->
  first (exec_all (fun t => owned_by user_id t && titled current_title t) st)
    = Some task ->
  let st' := snd (update_task_by_title now user_id current_title new_title
                    description priority status due_date tags st) in
  fst (update_task_by_title now user_id current_title new_title
         description priority status due_date tags st)
  = Return (success
      [("message", VStr ("Task '" ++ str current_title ++ "' updated."));
       ("task", VDict [("title", of_pystr new_title)])])
  /\ S (List.length
          (exec_all (fun t => owned_by user_id t && titled current_title t) st'))
     = List.length
         (exec_all (fun t => owned_by user_id t && titled current_title t) st)
  /\ List.length
       (exec_all (fun t => owned_by user_id t && titled new_title t) st')
     = S (List.length
            (exec_all (fun t => owned_by user_id t && titled new_title t) st)).
Proof.
  intros Hu Hus Ht Hn Hne Hf st'. subst st'.
  destruct (update_found now user_id current_title new_title description
              priority status due_date tags st task Hus Ht Hf) as [Hupd _].
  rewrite Hupd. cbn [fst snd].
  destruct (patch_fields now new_title description priority status due_date
              tags task) as (Hid & Huid & Hti & _).
  rewrite Hn in Hti.
  set (task' := patch now new_title description priority status due_date
                  tags task) in *.
  destruct (first_Some _ _ _ Hf) as [Hin Hp].
  apply andb_prop in Hp as [Ho Hc].
  unfold owned_by in Ho. apply pystr_eqb_eq in Ho.
  unfold titled in Hc. apply pystr_eqb_eq in Hc.
  rewrite Hti. split; [reflexivity|].
  unfold session_update, exec_all. rewrite Hid. split.
  - apply replace_count_out; [exact Hu|exact Hin| |].
    + unfold owned_by, titled. rewrite Ho, Hc. now rewrite !pystr_eqb_refl.
    + unfold owned_by, titled. rewrite Huid, Hti, Ho.
      rewrite pystr_eqb_refl. simpl. now apply pystr_eqb_neq.
  - apply replace_count_in; [exact Hu|exact Hin| |].
    + unfold owned_by, titled. rewrite Ho, Hc.
      rewrite pystr_eqb_refl. simpl. apply pystr_eqb_neq. congruence.
    + unfold owned_by, titled. rewrite Huid, Hti, Ho.
      now rewrite !pystr_eqb_refl.
Qed.

Lemma update_renames_witness :
  fst (update_task_by_title noon (Some "ann") (Some "milk") (Some "rent") None
         None None None None demo)
  = Return (success
      [("message", VStr "Task 'milk' updated.");
       ("task", VDict [("title", VStr "rent")])])
  /\ S (List.length
          (exec_all (fun t => owned_by (Some "ann") t && titled (Some "milk") t)
             (snd (update_task_by_title noon (Some "ann") (Some "milk")
                     (Some "rent") None None None None None demo))))
     = 1%nat
  /\ List.length
       (exec_all (fun t => owned_by (Some "ann") t && titled (Some "rent") t)
          (snd (update_task_by_title noon (Some "ann") (Some "milk")
                  (Some "rent") None None None None None demo)))
     = 2%nat.
Proof.
  apply (update_renames noon (Some "ann") (Some "milk") (Some "rent") None
           None None None None demo
           (models.mk "a1" (Some "ann") (Some "milk") (Some "two litres")
              (Some "medium") (Some "pending")
              (Some (Datetime.mk 2024 4 1 0 0 0 0)) (Some "home")
              (Some nine) (Some nine))
           (unique_ids_check demo eq_refl) eq_refl eq_refl eq_refl).
  - discriminate.
  - reflexivity.
Defined.
